(** * process_excel_data.py: resilient name resolution and history gating

    A shallow embedding of [src/process_excel_data.py].

    Python strings are lists of Unicode code points.  The Unicode database
    behind [unicodedata.normalize('NFKD', _)], Python's [str()] of a list and
    Spark's analysis of a column reference are library code outside the
    repository: they are Section variables, and the one fact about NFKD that
    some results need (text made of ASCII code points is already in NFKD
    form) is a Section hypothesis.  What the program prints is not part of
    the model. *)

From Stdlib Require Import List Bool NArith ZArith Lia Ascii String.
Import ListNotations.

Local Open Scope N_scope.

Set Default Proof Using "Type".

(** ** Python strings *)

Definition pystr := list N.

(** An ASCII literal of the source as a list of code points. *)
Definition lit (s : string) : pystr :=
  map N_of_ascii (list_ascii_of_string s).

Definition pystr_eqb (a b : pystr) : bool :=
  if list_eq_dec N.eq_dec a b then true else false.

(** [x in l] on a list of strings. *)
Definition py_in_list (x : pystr) (l : list pystr) : bool :=
  existsb (pystr_eqb x) l.

(** [s.startswith(p)] *)
Fixpoint startswith (s p : pystr) : bool :=
  match p, s with
  | [], _ => true
  | _ :: _, [] => false
  | b :: p', a :: s' => (a =? b) && startswith s' p'
  end.

(** [needle in hay] on strings: some suffix of [hay] starts with [needle]. *)
Fixpoint py_contains (needle hay : pystr) : bool :=
  startswith hay needle ||
  match hay with
  | [] => false
  | _ :: hay' => py_contains needle hay'
  end.

(** Truth value of a string: [not text] holds of the empty string. *)
Definition truthy (s : pystr) : bool :=
  match s with [] => false | _ :: _ => true end.

(** Truth value of an [Optional[str]]: [None] and [""] are false. *)
Definition truthy_opt (o : option pystr) : bool :=
  match o with None => false | Some s => truthy s end.

(** ** Character classes *)

Definition is_ascii (c : N) : bool := c <? 128.

(** [str.lower()] on one code point; the source applies it to text that
    [encode('ascii', 'ignore')] has already reduced to ASCII. *)
Definition lower_cp (c : N) : N :=
  if (65 <=? c) && (c <=? 90) then c + 32 else c.

(** The class [\s] of [re] on a [str] pattern, restricted to the ASCII range
    (the only range left when the source applies it): TAB, LF, VT, FF, CR,
    the separators FS, GS, RS, US and the space. *)
Definition is_space (c : N) : bool :=
  ((9 <=? c) && (c <=? 13)) || ((28 <=? c) && (c <=? 32)).

Definition SPACE : N := 32.

(** [text.encode('ascii', 'ignore').decode('utf-8', 'ignore')] *)
Definition ascii_ignore (s : pystr) : pystr := filter is_ascii s.

(** [s.lower()] *)
Definition py_lower (s : pystr) : pystr := map lower_cp s.

(** [re.sub(r'\s+', '', s)] *)
Definition strip_all_whitespace (s : pystr) : pystr :=
  filter (fun c => negb (is_space c)) s.

(** [s.replace(" ", "")] *)
Definition remove_spaces (s : pystr) : pystr :=
  filter (fun c => negb (c =? SPACE)) s.

(** A fragment of the NFKD mapping, for evaluating the definitions on
    concrete text: it decomposes the listed Latin-1 letters and the
    no-break space, and leaves every other code point (all of ASCII
    included) as it is. *)
Definition nfkd_fragment_table : list (N * pystr) :=
  [ (160, [32]);          (* NO-BREAK SPACE *)
    (192, [65; 768]);     (* A grave *)
    (201, [69; 769]);     (* E acute *)
    (224, [97; 768]);     (* a grave *)
    (231, [99; 807]);     (* c cedilla *)
    (232, [101; 768]);    (* e grave *)
    (233, [101; 769]) ].  (* e acute *)

Fixpoint table_lookup (c : N) (t : list (N * pystr)) : option pystr :=
  match t with
  | [] => None
  | (k, d) :: t' => if c =? k then Some d else table_lookup c t'
  end.

Definition nfkd_fragment_cp (c : N) : pystr :=
  match table_lookup c nfkd_fragment_table with
  | Some d => d
  | None => [c]
  end.

Definition nfkd_fragment (s : pystr) : pystr := flat_map nfkd_fragment_cp s.

(** ** Exceptions *)

(** The classes of the exceptions the program raises or catches.
    [AnalysisException] is what Spark raises on a missing table or on a
    column reference it cannot resolve; [LibraryError] stands for whatever a
    failing read of the file raises inside Py4J or openpyxl. *)
Inductive exc_class :=
  ValueError | FileNotFoundError | AnalysisException | Exception
| LibraryError.

Record exn := mk_exn { exn_class : exc_class; exn_msg : pystr }.

Inductive result (A : Type) :=
| Ok (a : A)
| Raise (e : exn).
Arguments Ok {A} a.
Arguments Raise {A} e.

(** ** Data frames and the spreadsheet *)

(** A cell is null or holds a value (rendered as text). *)
Definition cell := option pystr.

Record DataFrame := mk_df { columns : list pystr; rows : list (list cell) }.

(** The workbook behind an HDFS path: the sheet names in workbook order
    ([workbook.sheetnames]) and the frame that [pd.read_excel] yields for a
    sheet, its first row being the header. *)
Record Workbook := mk_wb {
  sheetnames : list pystr;
  read_sheet : pystr -> DataFrame
}.

(** What reading the path gives.  [ReadError text]: [binaryFiles(..).take(1)]
    or [openpyxl.load_workbook] raises, with [text] the string of the
    exception (a path that does not exist, a file that is no workbook).
    [NoFile]: the read succeeds and returns no file (a directory without
    files).  [File wb]: the workbook was read. *)
Inductive hdfs_read :=
| ReadError (text : pystr)
| NoFile
| File (wb : Workbook).

(** ** The Spark engine

    Two behaviours of Spark are taken from the engine rather than modelled:
    which column of a frame a reference [F.col(text)] denotes, and the text
    of the errors it raises. *)

Inductive engine_failure :=
| CannotInferEmptySchema
| CannotResolve (reference : pystr) (header : list pystr).

Record SparkEngine := mk_engine {
  (** the header of the column that [F.col(reference)] denotes in a frame
      with this header, [None] when the analysis of the reference fails *)
  resolve_column : list pystr -> pystr -> option pystr;
  engine_text : engine_failure -> pystr
}.

(** Text made of ASCII code points only is in NFKD form. *)
Definition nfkd_fixes_ascii (nfkd : pystr -> pystr) : Prop :=
  forall s, forallb is_ascii s = true -> nfkd s = s.

(** ** Column quoting *)

(** The class [\s] of [re] on a [str] pattern, over all of Unicode: the code
    points for which [str.isspace()] holds. *)
Definition is_unicode_space (c : N) : bool :=
  ((9 <=? c) && (c <=? 13)) || ((28 <=? c) && (c <=? 32))
  || (c =? 133) || (c =? 160) || (c =? 5760)
  || ((8192 <=? c) && (c <=? 8202))
  || (c =? 8232) || (c =? 8233) || (c =? 8239) || (c =? 8287)
  || (c =? 12288).

Definition BACKTICK : N := 96.

(** [re.search(r'[\s\(\)-]', col_name)]: some character is whitespace, a
    parenthesis or a hyphen. *)
Definition has_special_char (col_name : pystr) : bool :=
  existsb (fun c => is_unicode_space c || (c =? 40) || (c =? 41) || (c =? 45))
          col_name.

(** [s.endswith(p)] *)
Definition endswith (s p : pystr) : bool := startswith (rev s) (rev p).

(** [quote_column_if_needed] (lines 89-92) *)
Definition quote_column_if_needed (col_name : pystr) : pystr :=
  if has_special_char col_name
     && negb (startswith col_name [BACKTICK] && endswith col_name [BACKTICK])
  then [BACKTICK] ++ col_name ++ [BACKTICK]
  else col_name.

Section Program.

(** [unicodedata.normalize('NFKD', _)] *)
Variable nfkd : pystr -> pystr.

(** [normalize_text_for_matching] (lines 35-42) *)
Definition normalize_text_for_matching (text : pystr) : pystr :=
  if negb (truthy text) then []
  else
    let nfkd_form := nfkd text in
    let only_ascii := ascii_ignore nfkd_form in
    let lower_case := py_lower only_ascii in
    let no_whitespace := strip_all_whitespace lower_case in
    no_whitespace.

(** [normalize_for_substring_search] (lines 102-105), the inner function of
    [find_flag_columns_for_aggregation] *)
Definition normalize_for_substring_search (text : pystr) : pystr :=
  let nfkd_form := nfkd text in
  let only_ascii := ascii_ignore nfkd_form in
  remove_spaces (py_lower only_ascii).


(** [str(l)] of a list of strings, as an f-string interpolates it. *)
Variable str_of_list : list pystr -> pystr.

(** The Spark session of lines 22-27. *)
Variable spark : SparkEngine.

(** ** NameResolver *)

(** The loop of lines 62-66: the first sheet whose normalized name starts
    with the normalized prefix is returned from inside the loop. *)
Fixpoint sheet_loop (normalized_target_prefix : pystr)
         (available_sheet_names : list pystr) : option pystr :=
  match available_sheet_names with
  | [] => None
  | sheet_name_original :: later =>
      let normalized_current_sheet :=
        normalize_text_for_matching sheet_name_original in
      if startswith normalized_current_sheet normalized_target_prefix
      then Some sheet_name_original
      else sheet_loop normalized_target_prefix later
  end.

Definition sheet_not_found_msg (target_prefix_raw normalized_target_prefix
                                hdfs_excel_path : pystr)
           (available_sheet_names : list pystr) : pystr :=
  lit "No sheet found starting with '" ++ target_prefix_raw
  ++ lit "' (normalized: '" ++ normalized_target_prefix
  ++ lit "') in Excel file '" ++ hdfs_excel_path
  ++ lit "'. Available sheets: " ++ str_of_list available_sheet_names.

(** [find_resilient_sheet_name] (lines 44-73).  [file] is what
    [binaryFiles(path).take(1)] and [openpyxl.load_workbook] give.  Every
    exception of the [try] block, the one of a failing read included, is
    caught and raised again as an [Exception] that quotes it. *)
Definition find_resilient_sheet_name (file : hdfs_read)
           (hdfs_excel_path target_prefix_raw : pystr) : result pystr :=
  let normalized_target_prefix :=
    normalize_text_for_matching target_prefix_raw in
  let try_block : result pystr :=
    match file with
    | ReadError text => Raise (mk_exn LibraryError text)
    | NoFile =>
        Raise (mk_exn FileNotFoundError
                 (lit "Excel file not found or empty at HDFS path: "
                  ++ hdfs_excel_path))
    | File workbook =>
        let available_sheet_names := sheetnames workbook in
        match sheet_loop normalized_target_prefix available_sheet_names with
        | Some sheet_name_original => Ok sheet_name_original
        | None =>
            Raise (mk_exn ValueError
                     (sheet_not_found_msg target_prefix_raw
                        normalized_target_prefix hdfs_excel_path
                        available_sheet_names))
        end
    end in
  match try_block with
  | Ok sheet => Ok sheet
  | Raise e =>
      Raise (mk_exn Exception
               (lit "Could not enumerate sheets from Excel file '"
                ++ hdfs_excel_path ++ lit "'. Original error: "
                ++ exn_msg e))
  end.

(** The inner loop of lines 79-83, threading [selected_original_cols]. *)
Fixpoint column_loop (norm_prefix : pystr) (actual_columns : list pystr)
         (selected_original_cols : list pystr) : list pystr :=
  match actual_columns with
  | [] => selected_original_cols
  | actual_col_original :: later =>
      let normalized_actual_col :=
        normalize_text_for_matching actual_col_original in
      let selected' :=
        if startswith normalized_actual_col norm_prefix then
          if negb (py_in_list actual_col_original selected_original_cols)
          then selected_original_cols ++ [actual_col_original]
          else selected_original_cols
        else selected_original_cols in
      column_loop norm_prefix later selected'
  end.

(** The outer loop of lines 78-83. *)
Fixpoint prefix_loop (normalized_target_prefixes : list pystr)
         (actual_columns : list pystr)
         (selected_original_cols : list pystr) : list pystr :=
  match normalized_target_prefixes with
  | [] => selected_original_cols
  | norm_prefix :: later =>
      prefix_loop later actual_columns
        (column_loop norm_prefix actual_columns selected_original_cols)
  end.

(** [get_resilient_column_names] (lines 75-87); the warning printed on an
    empty result does not change it. *)
Definition get_resilient_column_names (actual_columns : list pystr)
           (target_prefixes_raw : list pystr) : list pystr :=
  let normalized_target_prefixes :=
    map normalize_text_for_matching target_prefixes_raw in
  prefix_loop normalized_target_prefixes actual_columns [].

(** ** FlagColumnHeuristic *)

(** The loop of lines 111-117, threading [col_flag_name]. *)
Fixpoint flag_loop (norm_marker1 norm_marker2 norm_flag_prefix : pystr)
         (actual_columns : list pystr) (col_flag_name : option pystr)
  : option pystr :=
  match actual_columns with
  | [] => col_flag_name
  | col_name :: later =>
      let norm_col_full := normalize_text_for_matching col_name in
      let norm_col_substring := normalize_for_substring_search col_name in
      let col_flag_name' :=
        if startswith norm_col_full norm_flag_prefix then
          if (py_contains norm_marker1 norm_col_substring
              || py_contains norm_marker2 norm_col_substring)
             && negb (truthy_opt col_flag_name)
          then Some col_name
          else col_flag_name
        else col_flag_name in
      flag_loop norm_marker1 norm_marker2 norm_flag_prefix later
        col_flag_name'
  end.

(** [find_flag_columns_for_aggregation] (lines 94-119) *)
Definition find_flag_columns_for_aggregation (actual_columns : list pystr)
  : option pystr :=
  let norm_marker1 := normalize_for_substring_search (lit "marker1") in
  let norm_marker2 := normalize_for_substring_search (lit "marker2") in
  let norm_flag_prefix := normalize_text_for_matching (lit "flag") in
  flag_loop norm_marker1 norm_marker2 norm_flag_prefix actual_columns None.

(** ** The tabular engine

    The Spark operations the pipeline uses, on the frame model.  They take
    the header of the column they work on; which column a reference
    [F.col(quote_column_if_needed(c))] denotes is asked of the engine, by
    [F_col] below. *)

Fixpoint col_index (name : pystr) (cols : list pystr) : option nat :=
  match cols with
  | [] => None
  | c :: later =>
      if pystr_eqb c name then Some 0%nat
      else option_map S (col_index name later)
  end.

(** The cell of [row] under column [name] of a frame whose header is [cols]. *)
Definition cell_of (cols : list pystr) (row : list cell) (name : pystr) : cell :=
  match col_index name cols with
  | Some i => nth i row None
  | None => None
  end.

(** SQL truth values: [None] is NULL. *)
Definition sql_bool := option bool.

Definition sql_and (a b : sql_bool) : sql_bool :=
  match a, b with
  | Some false, _ | _, Some false => Some false
  | Some true, Some true => Some true
  | _, _ => None
  end.

(** [Column.isNotNull()] *)
Definition isNotNull (c : cell) : sql_bool :=
  Some (match c with Some _ => true | None => false end).

Fixpoint ltrim (s : pystr) : pystr :=
  match s with
  | [] => []
  | c :: s' => if c =? SPACE then ltrim s' else s
  end.

(** Spark's [trim] on a value: the space characters (U+0020) are removed
    from both ends. *)
Definition trim (s : pystr) : pystr := rev (ltrim (rev (ltrim s))).

(** [F.trim(col)]: NULL stays NULL. *)
Definition F_trim (c : cell) : cell := option_map trim c.

(** [col != value]: NULL when the cell is NULL. *)
Definition col_neq (c : cell) (v : pystr) : sql_bool :=
  option_map (fun x => negb (pystr_eqb x v)) c.

(** [DataFrame.filter]: a row is kept when the condition is true; false and
    NULL both drop it. *)
Definition df_filter (df : DataFrame) (cond : list cell -> sql_bool) : DataFrame :=
  mk_df (columns df)
        (filter (fun r => match cond r with Some true => true | _ => false end)
                (rows df)).

(** [DataFrame.select] of [F.col(source).alias(name)] expressions. *)
Definition df_select (df : DataFrame) (exprs : list (pystr * pystr)) : DataFrame :=
  mk_df (map snd exprs)
        (map (fun r => map (fun e => cell_of (columns df) r (fst e)) exprs)
             (rows df)).

(** [DataFrame.count()] *)
Definition df_count (df : DataFrame) : Z := Z.of_nat (List.length (rows df)).

Definition is_not_null (c : cell) : bool :=
  match c with Some _ => true | None => false end.

(** [df.agg(F.count(F.col(c)))]: the number of rows whose cell under [c] is
    not NULL. *)
Definition agg_count (df : DataFrame) (c : pystr) : Z :=
  Z.of_nat (List.length (filter is_not_null
                           (map (fun r => cell_of (columns df) r c) (rows df)))).

(** ** The table store *)

(** The history table's schema (lines 223-227); every field is nullable. *)
Record HistoryRow := mk_history {
  filename : option pystr;
  processing_timestamp : option pystr;
  flagged_line_count : option Z
}.

(** The two Hive tables; [None] is a table that does not exist. *)
Record Store := mk_store {
  intermediate_table : option DataFrame;
  history_table : option (list HistoryRow)
}.

(** [write.mode('overwrite').saveAsTable(table_hive_inter)] *)
Definition write_overwrite_intermediate (st : Store) (df : DataFrame) : Store :=
  mk_store (Some df) (history_table st).

(** [write.mode('append').saveAsTable(target_hive_table)]: the table is
    created when it does not exist. *)
Definition write_append_history (st : Store) (r : HistoryRow) : Store :=
  mk_store (intermediate_table st)
           (Some (match history_table st with
                  | None => [r]
                  | Some old => old ++ [r]
                  end)).

(** Order of strings by code points. *)
Fixpoint pystr_ltb (a b : pystr) : bool :=
  match a, b with
  | _, [] => false
  | [], _ :: _ => true
  | x :: a', y :: b' => (x <? y) || ((x =? y) && pystr_ltb a' b')
  end.

(** Order of nullable timestamps; NULL is below every value, so that it
    comes last under [ORDER BY ... DESC]. *)
Definition timestamp_ltb (a b : option pystr) : bool :=
  match a, b with
  | None, Some _ => true
  | Some x, Some y => pystr_ltb x y
  | _, None => false
  end.

(** The first row of the table under [ORDER BY processing_timestamp DESC];
    among rows with the same timestamp the earliest stored one is taken. *)
Fixpoint latest_row (tbl : list HistoryRow) : option HistoryRow :=
  match tbl with
  | [] => None
  | r :: later =>
      match latest_row later with
      | None => Some r
      | Some m =>
          if timestamp_ltb (processing_timestamp r) (processing_timestamp m)
          then Some m else Some r
      end
  end.

(** The query of lines 233-238 followed by [collect()]: the columns
    [filename, flagged_line_count] of at most one row.  A missing table makes
    [spark.sql] raise. *)
Definition query_latest_history (history : option (list HistoryRow))
  : result (list (option pystr * option Z)) :=
  match history with
  | None =>
      Raise (mk_exn AnalysisException (lit "Table or view not found"))
  | Some tbl =>
      Ok (match latest_row tbl with
          | None => []
          | Some r => [(filename r, flagged_line_count r)]
          end)
  end.

(** Python's [==] between a string and a nullable string field. *)
Definition str_eq_field (s : pystr) (f : option pystr) : bool :=
  match f with Some x => pystr_eqb s x | None => false end.

(** Python's [==] between an integer and a nullable integer field. *)
Definition int_eq_field (n : Z) (f : option Z) : bool :=
  match f with Some x => Z.eqb n x | None => false end.

(** ** HistoryGate *)

(** Lines 231-253: the value of [last_record_changed] after the [try]. *)
Definition last_record_changed (history : option (list HistoryRow))
           (excel_file_name_only : pystr) (flagged_line_count : Z) : bool :=
  match query_latest_history history with
  | Raise _ => true
  | Ok latest_history_row =>
      match latest_history_row with
      | last_record :: _ =>
          if str_eq_field excel_file_name_only (fst last_record)
             && int_eq_field flagged_line_count (snd last_record)
          then false
          else true
      | [] => true
      end
  end.

(** Lines 218-261: build the candidate record, read the latest record and
    append the candidate when a change was detected. *)
Definition history_gate (excel_file_name_only processing_timestamp_str : pystr)
           (flagged_line_count : Z) (st : Store) : Store :=
  let historical_data :=
    mk_history (Some excel_file_name_only) (Some processing_timestamp_str)
               (Some flagged_line_count) in
  if last_record_changed (history_table st) excel_file_name_only
                         flagged_line_count
  then write_append_history st historical_data
  else st.

(** ** IngestionPipeline *)

Definition SLASH : N := 47.

Fixpoint after_last_slash (p acc : pystr) : pystr :=
  match p with
  | [] => acc
  | c :: p' => if c =? SLASH then after_last_slash p' p'
               else after_last_slash p' acc
  end.

(** [os.path.basename]: what follows the last slash. *)
Definition basename (p : pystr) : pystr := after_last_slash p p.

(** The filter condition of lines 170-171 on the column [c] of a frame whose
    header is [cols]. *)
Definition valid_row_condition (cols : list pystr) (c : pystr)
           (r : list cell) : sql_bool :=
  sql_and (isNotNull (cell_of cols r c))
          (col_neq (F_trim (cell_of cols r c)) []).

(** [spark.createDataFrame(df_pandas)] (line 155): the schema of a frame
    without a data row cannot be inferred.  Cells are taken as Spark
    receives them; sheets whose columns Spark cannot type are outside the
    cell model. *)
Definition createDataFrame (df_pandas : DataFrame) : result DataFrame :=
  match rows df_pandas with
  | [] => Raise (mk_exn ValueError (engine_text spark CannotInferEmptySchema))
  | _ :: _ => Ok df_pandas
  end.

(** [F.col(quote_column_if_needed(col_name))] in an operation on a frame
    whose header is [cols]: the column it denotes, or the
    [AnalysisException] that the operation raises. *)
Definition F_col (cols : list pystr) (col_name : pystr) : result pystr :=
  let reference := quote_column_if_needed col_name in
  match resolve_column spark cols reference with
  | Some c => Ok c
  | None =>
      Raise (mk_exn AnalysisException
               (engine_text spark (CannotResolve reference cols)))
  end.

(** The analysis of [df_spark.select] (line 195) on the
    [(source, alias)] pairs: every source is resolved, the first one that
    cannot be makes the select raise. *)
Fixpoint resolve_select (cols : list pystr) (exprs : list (pystr * pystr))
  : result (list (pystr * pystr)) :=
  match exprs with
  | [] => Ok []
  | (source, alias) :: later =>
      match F_col cols source with
      | Raise e => Raise e
      | Ok c =>
          match resolve_select cols later with
          | Raise e => Raise e
          | Ok resolved => Ok ((c, alias) :: resolved)
          end
      end
  end.

(** Lines 206-213.  A global aggregate always yields one row whose count is
    not NULL, so the inner test of line 212 holds. *)
Definition compute_flagged_line_count (df_spark : DataFrame)
           (initial_row_count : Z) (actual_flag_col : option pystr)
  : result Z :=
  match actual_flag_col with
  | Some c =>
      if (0 <? initial_row_count)%Z && truthy_opt actual_flag_col
      then match F_col (columns df_spark) c with
           | Raise e => Raise e
           | Ok flag => Ok (agg_count df_spark flag)
           end
      else Ok 0%Z
  | None => Ok 0%Z
  end.

Definition column_not_found_msg (target : string) (cols : list pystr) : pystr :=
  lit "Column '" ++ lit target ++ lit "' not found in headers: "
  ++ str_of_list cols.

(** Lines 132-213 of [process_excel]: resolve the sheet, load it, filter the
    valid rows, resolve the columns, overwrite the intermediate table and
    compute the file name and the flagged-line count of the history record. *)
Definition ingest (hdfs_excel_path : pystr) (file : hdfs_read)
           (st : Store) : Store * result (pystr * Z) :=
  let target_sheet_prefix_raw := lit "sheet_prefix_to_find" in
  match find_resilient_sheet_name file hdfs_excel_path
                                  target_sheet_prefix_raw with
  | Raise e => (st, Raise e)
  | Ok excel_sheet_name =>
  match file with
  | ReadError text => (st, Raise (mk_exn LibraryError text))
  | NoFile =>
      (st, Raise (mk_exn FileNotFoundError
                    (lit "Excel file not found or empty at HDFS path: "
                     ++ hdfs_excel_path)))
  | File workbook =>
  let df_pandas := read_sheet workbook excel_sheet_name in
  match createDataFrame df_pandas with
  | Raise e => (st, Raise e)
  | Ok df_spark_raw =>
  let column_a_candidates :=
    get_resilient_column_names (columns df_spark_raw) [lit "column_a"] in
  match column_a_candidates with
  | [] =>
      (st, Raise (mk_exn ValueError
                    (column_not_found_msg "column_a" (columns df_spark_raw))))
  | actual_column_a_for_filter :: _ =>
  match F_col (columns df_spark_raw) actual_column_a_for_filter with
  | Raise e => (st, Raise e)
  | Ok filter_column =>
  let df_spark :=
    df_filter df_spark_raw
      (valid_row_condition (columns df_spark_raw) filter_column) in
  let initial_row_count := df_count df_spark in
  let actual_column_a_for_select := actual_column_a_for_filter in
  let column_b_candidates :=
    get_resilient_column_names (columns df_spark_raw) [lit "column_b"] in
  match column_b_candidates with
  | [] =>
      (st, Raise (mk_exn ValueError
                    (column_not_found_msg "column_b" (columns df_spark_raw))))
  | actual_column_b :: _ =>
  let actual_flag_col :=
    find_flag_columns_for_aggregation (columns df_spark) in
  let select_expressions :=
    [(actual_column_a_for_select, lit "column_a");
     (actual_column_b, lit "column_b")]
    ++ match actual_flag_col with
       | Some c => if truthy c then [(c, lit "flag")] else []
       | None => []
       end in
  match resolve_select (columns df_spark) select_expressions with
  | Raise e => (st, Raise e)
  | Ok resolved_expressions =>
  let df_for_hive_intermediate := df_select df_spark resolved_expressions in
  let st' := write_overwrite_intermediate st df_for_hive_intermediate in
  let excel_file_name_only := basename hdfs_excel_path in
  match compute_flagged_line_count df_spark initial_row_count
                                   actual_flag_col with
  | Raise e => (st', Raise e)
  | Ok flagged_line_count =>
      (st', Ok (excel_file_name_only, flagged_line_count))
  end end end end end end end end.

(** [process_excel] (lines 121-265).  [now] is the formatted wall-clock time
    of line 204.  An exception is printed and raised again. *)
Definition process_excel (hdfs_excel_path : pystr) (file : hdfs_read)
           (now : pystr) (st : Store) : Store * result unit :=
  match ingest hdfs_excel_path file st with
  | (st', Raise e) => (st', Raise e)
  | (st', Ok (excel_file_name_only, flagged_line_count)) =>
      (history_gate excel_file_name_only now flagged_line_count st', Ok tt)
  end.

(** ** Main execution block *)

(** What a run of the script leaves behind: the exit status of the process,
    the tables, and whether [spark.stop()] was called. *)
Record Outcome := mk_outcome {
  exit_code : Z;
  final_store : Store;
  spark_stopped : bool
}.

(** Lines 21-32 and 268-285.  [spark_init] tells whether the session of
    lines 22-29 could be built, [argv] is [sys.argv] and [hdfs] gives what
    reading a path yields.  A wrong number of arguments exits before the
    [try], so the [finally] clause that stops the session is not reached. *)
Definition main (spark_init : bool) (argv : list pystr)
           (hdfs : pystr -> hdfs_read) (now : pystr) (st : Store)
  : Outcome :=
  if negb spark_init then mk_outcome 1 st false
  else
    match argv with
    | [_; excel_file_hdfs_arg] =>
        match process_excel excel_file_hdfs_arg (hdfs excel_file_hdfs_arg)
                            now st with
        | (st', Ok _) => mk_outcome 0 st' true
        | (st', Raise _) => mk_outcome 1 st' true
        end
    | _ => mk_outcome 1 st false
    end.

(** ** The bulk resolver as the specification words it

    [resolve_many]: for each prefix in the order given, scan the candidates in
    source order and collect the first match only, skipping candidates
    collected for an earlier prefix.  It is compared with
    [get_resilient_column_names] below. *)

Fixpoint first_uncollected_match (norm_prefix : pystr)
         (candidates collected : list pystr) : option pystr :=
  match candidates with
  | [] => None
  | c :: later =>
      if startswith (normalize_text_for_matching c) norm_prefix
         && negb (py_in_list c collected)
      then Some c
      else first_uncollected_match norm_prefix later collected
  end.

Fixpoint resolve_many_loop (norm_prefixes candidates collected : list pystr)
  : list pystr :=
  match norm_prefixes with
  | [] => collected
  | norm_prefix :: later =>
      resolve_many_loop later candidates
        (match first_uncollected_match norm_prefix candidates collected with
         | Some c => collected ++ [c]
         | None => collected
         end)
  end.

Definition resolve_many_as_specified (candidates target_prefixes_raw : list pystr)
  : list pystr :=
  resolve_many_loop (map normalize_text_for_matching target_prefixes_raw)
                    candidates [].

End Program.

(** * Vocabulary of the statements *)

(** What a normalized key is made of. *)
Definition key_char (c : N) : bool :=
  is_ascii c && (lower_cp c =? c) && negb (is_space c).

(** [x] is the first element of [l], in order, that passes the test [P]. *)
Definition first_such {A} (P : A -> bool) (l : list A) (x : A) : Prop :=
  exists before after,
    l = before ++ x :: after /\ P x = true /\
    forall y, In y before -> P y = false.

(** The message [msg] contains the text [part]. *)
Definition carries (msg part : pystr) : Prop :=
  exists pre post, msg = pre ++ part ++ post.

(** The prefix test of the resolvers: the normalized candidate starts with
    the normalized target prefix. *)
Definition prefix_match (nfkd : pystr -> pystr) (target_prefix_raw c : pystr)
  : bool :=
  startswith (normalize_text_for_matching nfkd c)
             (normalize_text_for_matching nfkd target_prefix_raw).

(** The two tests of the flag heuristic on a header. *)
Definition flag_qualifies (nfkd : pystr -> pystr) (h : pystr) : bool :=
  startswith (normalize_text_for_matching nfkd h) (lit "flag")
  && (py_contains (lit "marker1") (normalize_for_substring_search nfkd h)
      || py_contains (lit "marker2") (normalize_for_substring_search nfkd h)).

(** The elements of [l] in order, each kept at its first occurrence only and
    only if it is not in [seen]. *)
Fixpoint keep_first (seen l : list pystr) : list pystr :=
  match l with
  | [] => []
  | x :: l' =>
      if py_in_list x seen then keep_first seen l'
      else x :: keep_first (x :: seen) l'
  end.

(** The matches of every prefix in turn, each list in source order. *)
Definition all_matches (nfkd : pystr -> pystr)
           (candidates target_prefixes_raw : list pystr) : list pystr :=
  flat_map (fun p => filter (prefix_match nfkd p) candidates)
           target_prefixes_raw.

(** A resolution that [process_excel] reaches and that finds no match: the
    target prefix and the candidates it was looked up among.  The sheet is
    resolved first; [column_a] is looked up among the headers once the
    frame of the sheet is created, which needs a data row; [column_b] is
    looked up once the filter on the column resolved for [column_a] is
    built, which needs the engine to resolve the reference to it. *)
Inductive resolution_fails (nfkd : pystr -> pystr) (spark : SparkEngine)
          (wb : Workbook) : pystr -> list pystr -> Prop :=
| sheet_unmatched :
    (forall s, In s (sheetnames wb) ->
               prefix_match nfkd (lit "sheet_prefix_to_find") s = false) ->
    resolution_fails nfkd spark wb (lit "sheet_prefix_to_find") (sheetnames wb)
| column_a_unmatched (sheet : pystr) :
    first_such (prefix_match nfkd (lit "sheet_prefix_to_find"))
               (sheetnames wb) sheet ->
    rows (read_sheet wb sheet) <> [] ->
    (forall c, In c (columns (read_sheet wb sheet)) ->
               prefix_match nfkd (lit "column_a") c = false) ->
    resolution_fails nfkd spark wb (lit "column_a")
                     (columns (read_sheet wb sheet))
| column_b_unmatched (sheet a filter_column : pystr) :
    first_such (prefix_match nfkd (lit "sheet_prefix_to_find"))
               (sheetnames wb) sheet ->
    rows (read_sheet wb sheet) <> [] ->
    hd_error (get_resilient_column_names nfkd (columns (read_sheet wb sheet))
                [lit "column_a"]) = Some a ->
    resolve_column spark (columns (read_sheet wb sheet))
                   (quote_column_if_needed a) = Some filter_column ->
    (forall c, In c (columns (read_sheet wb sheet)) ->
               prefix_match nfkd (lit "column_b") c = false) ->
    resolution_fails nfkd spark wb (lit "column_b")
                     (columns (read_sheet wb sheet)).

(** The row keeps its place in the filtered frame: its cell under column
    [a] is not NULL and is not empty once trimmed. *)
Definition row_is_valid (cols : list pystr) (a : pystr) (r : list cell) : bool :=
  match cell_of cols r a with
  | Some v => negb (pystr_eqb (trim v) [])
  | None => false
  end.

(** The number of cells of [cells] that are not NULL. *)
Definition non_null_count (cells : list cell) : Z :=
  Z.of_nat (List.length (filter is_not_null cells)).

(** The rows of [df] that pass the validity filter on column [ca]. *)
Definition kept_rows (df : DataFrame) (ca : pystr) : list (list cell) :=
  filter (row_is_valid (columns df) ca) (rows df).

(** The flag header that [process_excel] acts on: the one the heuristic
    returns, when its truth value is true. *)
Definition chosen_flag (nfkd : pystr -> pystr) (cols : list pystr)
  : option pystr :=
  match find_flag_columns_for_aggregation nfkd cols with
  | Some c => if truthy c then Some c else None
  | None => None
  end.

(** A run on [wb] gets through the resolutions it cannot do without: the
    sheet is [sheet], its frame has a data row, and the engine takes the
    references to the headers chosen for [column_a] and [column_b] to the
    columns [ca] and [cb]. *)
Definition required_resolve (nfkd : pystr -> pystr) (spark : SparkEngine)
           (wb : Workbook) (sheet ca cb : pystr) : Prop :=
  let df := read_sheet wb sheet in
  let cols := columns df in
  first_such (prefix_match nfkd (lit "sheet_prefix_to_find"))
             (sheetnames wb) sheet
  /\ rows df <> []
  /\ (exists a,
        hd_error (get_resilient_column_names nfkd cols [lit "column_a"])
        = Some a
        /\ resolve_column spark cols (quote_column_if_needed a) = Some ca)
  /\ (exists b,
        hd_error (get_resilient_column_names nfkd cols [lit "column_b"])
        = Some b
        /\ resolve_column spark cols (quote_column_if_needed b) = Some cb).

(** A run on [wb] gets through every resolution: the required ones, and the
    engine takes the reference to the flag header, when there is one, to the
    column [cf]. *)
Definition run_resolves (nfkd : pystr -> pystr) (spark : SparkEngine)
           (wb : Workbook) (sheet ca cb : pystr) (cf : option pystr) : Prop :=
  required_resolve nfkd spark wb sheet ca cb
  /\ match chosen_flag nfkd (columns (read_sheet wb sheet)) with
     | Some flag =>
         resolve_column spark (columns (read_sheet wb sheet))
                        (quote_column_if_needed flag) = cf
         /\ cf <> None
     | None => cf = None
     end.

(** The intermediate table of a run that resolves to [ca], [cb] and [cf]:
    the projection of the valid rows. *)
Definition resolved_table (df : DataFrame) (ca cb : pystr)
           (cf : option pystr) : DataFrame :=
  df_select (mk_df (columns df) (kept_rows df ca))
            ([(ca, lit "column_a"); (cb, lit "column_b")]
             ++ match cf with
                | Some c => [(c, lit "flag")]
                | None => []
                end).

(** Its flagged-line count: the cells of the flag column that are not NULL,
    over the valid rows. *)
Definition resolved_count (df : DataFrame) (ca : pystr) (cf : option pystr)
  : Z :=
  match cf with
  | Some c =>
      non_null_count (map (fun r => cell_of (columns df) r c)
                          (kept_rows df ca))
  | None => 0%Z
  end.

(** The records of the history table before the run; none when the table
    does not exist. *)
Definition prior_records (st : Store) : list HistoryRow :=
  match history_table st with
  | Some tbl => tbl
  | None => []
  end.

(** The rows of the intermediate table; none when it does not exist. *)
Definition rows_of_table (st : Store) : list (list cell) :=
  match intermediate_table st with
  | Some df => rows df
  | None => []
  end.

(** ** Sample inputs *)

(** The text [" Ecole A "] with an acute accent on both [e] and a TAB for
    the inner blank. *)
Definition sample_text : pystr := [32; 201; 99; 111; 108; 233; 9; 65; 32].

(** A rendering of a list of names that stands for Python's [str()]. *)
Definition sample_str_of_list (l : list pystr) : pystr :=
  lit "[" ++ List.concat (map (fun s => lit "'" ++ s ++ lit "', ") l) ++ lit "]".

Definition sample_path : pystr := lit "/data/in/q1.xlsx".

Definition sample_now : pystr := lit "2024-03-01 09:30".

Definition empty_store : Store := mk_store None None.

Definition wb_without_sheet : Workbook :=
  mk_wb [lit "Summary"; lit "Notes"] (fun _ => mk_df [] []).

Definition wb_without_column_a : Workbook :=
  mk_wb [lit "Sheet_Prefix_To_Find - March"]
        (fun _ => mk_df [lit "Foo"; lit "Bar"]
                        [ [Some (lit "1"); Some (lit "2")] ]).

(** A stand-in for the analysis of a column reference: a reference between
    back-quotes denotes the header it encloses, any other reference the
    header it spells unless it holds a dot; a back-quote inside the name or
    a header that is not in the frame makes the analysis fail. *)
Definition sample_resolve_column (cols : list pystr) (reference : pystr)
  : option pystr :=
  let quoted :=
    startswith reference [BACKTICK] && endswith reference [BACKTICK]
    && (2 <=? N.of_nat (List.length reference)) in
  let name := if quoted then removelast (tl reference) else reference in
  if existsb (fun c => c =? BACKTICK) name
     || (negb quoted && existsb (fun c => c =? 46) name)
  then None
  else if py_in_list name cols then Some name else None.

Definition sample_engine_text (failure : engine_failure) : pystr :=
  match failure with
  | CannotInferEmptySchema => lit "can not infer schema from empty dataset"
  | CannotResolve reference _ =>
      lit "cannot resolve '" ++ reference ++ lit "' given input columns"
  end.

Definition sample_engine : SparkEngine :=
  mk_engine sample_resolve_column sample_engine_text.

(** Two rows, the second with a TAB for [column_a]. *)
Definition wb_tab_cell : Workbook :=
  mk_wb [lit "Sheet_Prefix_To_Find"]
        (fun _ =>
           mk_df [lit "Column_A"; lit "Column_B"]
                 [ [Some (lit "A1"); Some (lit "x")];
                   [Some [9]; Some (lit "y")] ]).

(** A sheet with the two required columns and no flag column. *)
Definition wb_without_flag : Workbook :=
  mk_wb [lit "Sheet_Prefix_To_Find"]
        (fun _ =>
           mk_df [lit "Column_A"; lit "Column_B"]
                 [ [Some (lit "A1"); Some (lit "x")] ]).

(** Three rows, the second with a blank [column_a], the third with no flag. *)
Definition wb_march : Workbook :=
  mk_wb [lit "Cover"; lit "Sheet_Prefix_To_Find - March"]
        (fun _ =>
           mk_df [lit "Column_A Name"; lit "Column_B (code)"; lit "Flag Marker1"]
                 [ [Some (lit "A1"); Some (lit "x"); Some (lit "1")];
                   [Some (lit "   "); Some (lit "y"); Some (lit "1")];
                   [Some (lit "A3"); Some (lit "z"); None] ]).

Definition q1_count5 : HistoryRow :=
  mk_history (Some (lit "q1.xlsx")) (Some (lit "2024-02-01 10:00")) (Some 5%Z).

Definition q0_count9 : HistoryRow :=
  mk_history (Some (lit "q0.xlsx")) (Some (lit "2024-01-15 08:00")) (Some 9%Z).

(** A history whose most recent record, [q1_count5], is not the last stored. *)
Definition store_with_history : Store :=
  mk_store None (Some [q1_count5; q0_count9]).

Definition wb_flags : Workbook :=
  mk_wb [lit "Flag (old)"; lit "Flagged v2"] (fun _ => mk_df [] []).

(** A prefix of whitespace only: a space and a TAB. *)
Definition blank_prefix : pystr := [32; 9].

(** Two headers that both start with [column_a] once normalized. *)
Definition two_column_a_headers : list pystr :=
  [lit "Column_A"; lit "column_a (old)"; lit "Column_B"].

(** The store after the ingestion of [wb_march]. *)
Definition march_store : Store :=
  fst (ingest nfkd_fragment sample_str_of_list sample_engine sample_path (File wb_march)
              empty_store).

(** A target written with other casing and spacing than [column_a]. *)
Definition spaced_target : pystr := lit " Column_A ".


Definition sample_hdfs (path : pystr) : hdfs_read :=
  if pystr_eqb path sample_path then File wb_march
  else ReadError (lit "Input path does not exist: " ++ path).

(** The error of a run on [wb_without_column_a]. *)
Definition column_a_error : exn :=
  mk_exn ValueError
         (column_not_found_msg sample_str_of_list "column_a"
                               [lit "Foo"; lit "Bar"]).

(** The tables after a first run on [wb_march] over [store_with_history]. *)
Definition store_after_first_run : Store :=
  fst (process_excel nfkd_fragment sample_str_of_list sample_engine sample_path
                     (File wb_march) sample_now store_with_history).

(** * Properties *)

(** ** Strings *)

Lemma pystr_eqb_eq (a b : pystr) : pystr_eqb a b = true <-> a = b.
Proof.
  unfold pystr_eqb. destruct (list_eq_dec N.eq_dec a b); split;
    intros; congruence.
Qed.

Lemma pystr_eqb_refl (a : pystr) : pystr_eqb a a = true.
Proof. apply pystr_eqb_eq. reflexivity. Qed.

Lemma py_in_list_In (x : pystr) (l : list pystr) :
  py_in_list x l = true <-> In x l.
Proof.
  unfold py_in_list. rewrite existsb_exists. split.
  - intros [y [Hy He]]. apply pystr_eqb_eq in He. now subst.
  - intros H. exists x. split; [assumption | apply pystr_eqb_refl].
Qed.

Lemma startswith_nil (s : pystr) : startswith s [] = true.
Proof. destruct s; reflexivity. Qed.

Lemma startswith_spec (s p : pystr) :
  startswith s p = true <-> exists t, s = p ++ t.
Proof.
  revert s. induction p as [|b p IH]; intros s.
  - rewrite startswith_nil. split; [intros _; now exists s | reflexivity].
  - destruct s as [|a s]; simpl.
    + split; [discriminate | intros [t Ht]; discriminate].
    + rewrite andb_true_iff, N.eqb_eq, IH. split.
      * intros [-> [t ->]]. now exists t.
      * intros [t Ht]. injection Ht as -> ->. split; [reflexivity | now exists t].
Qed.

Lemma py_contains_spec (needle hay : pystr) :
  py_contains needle hay = true <-> exists pre post, hay = pre ++ needle ++ post.
Proof.
  induction hay as [|c hay IH].
  - cbn [py_contains]. rewrite orb_false_r, startswith_spec. split.
    + intros [t Ht]. now exists [], t.
    + intros [pre [post H]]. destruct pre; [now exists post | discriminate].
  - cbn [py_contains]. rewrite orb_true_iff, IH, startswith_spec. split.
    + intros [[t Ht] | [pre [post H]]].
      * now exists [], t.
      * exists (c :: pre), post. simpl. now rewrite H.
    + intros [pre [post H]]. destruct pre as [|c' pre].
      * left. now exists post.
      * right. injection H as _ H. now exists pre, post.
Qed.

(** ** TextNormalizer *)

Lemma table_lookup_below (c bound : N) (t : list (N * pystr)) :
  forallb (fun kd => bound <=? fst kd) t = true -> c < bound ->
  table_lookup c t = None.
Proof.
  induction t as [|[k d] t IH]; simpl; intros H Hc; [reflexivity|].
  apply andb_true_iff in H. destruct H as [Hk Ht].
  apply N.leb_le in Hk. destruct (N.eqb_spec c k); [lia | now apply IH].
Qed.

Lemma nfkd_fragment_fixes_ascii : nfkd_fixes_ascii nfkd_fragment.
Proof.
  intros s. induction s as [|c s IH]; simpl; intros H; [reflexivity|].
  apply andb_true_iff in H. destruct H as [Hc Hs].
  unfold nfkd_fragment_cp.
  rewrite (table_lookup_below c 128 nfkd_fragment_table); simpl.
  - f_equal. apply IH, Hs.
  - reflexivity.
  - now apply N.ltb_lt.
Qed.

Lemma lower_cp_idem (c : N) : lower_cp (lower_cp c) = lower_cp c.
Proof.
  unfold lower_cp.
  destruct ((65 <=? c) && (c <=? 90)) eqn:E; [|now rewrite E].
  apply andb_true_iff in E. destruct E as [E1 E2].
  apply N.leb_le in E1. apply N.leb_le in E2.
  replace (c + 32 <=? 90) with false; [now rewrite andb_false_r|].
  symmetry. apply N.leb_gt. lia.
Qed.

Lemma lower_cp_ascii (c : N) : is_ascii c = true -> is_ascii (lower_cp c) = true.
Proof.
  unfold is_ascii, lower_cp. intros H.
  destruct ((65 <=? c) && (c <=? 90)) eqn:E; [|assumption].
  apply andb_true_iff in E. destruct E as [_ E2].
  apply N.leb_le in E2. apply N.ltb_lt. lia.
Qed.

Section NormalizerFacts.

Variable nfkd : pystr -> pystr.
Local Abbreviation normalize := (normalize_text_for_matching nfkd).

Lemma normalize_empty : normalize [] = [].
Proof. reflexivity. Qed.

Lemma normalize_key_chars (x : pystr) : forallb key_char (normalize x) = true.
Proof.
  unfold normalize_text_for_matching.
  destruct (negb (truthy x)); [reflexivity|].
  unfold strip_all_whitespace, py_lower, ascii_ignore.
  apply forallb_forall. intros c Hc.
  apply filter_In in Hc. destruct Hc as [Hc Hsp].
  apply in_map_iff in Hc. destruct Hc as [d [<- Hd]].
  apply filter_In in Hd. destruct Hd as [_ Hd].
  unfold key_char. rewrite Hsp, lower_cp_idem, N.eqb_refl.
  now rewrite (lower_cp_ascii d Hd).
Qed.

Lemma key_chars_ascii (s : pystr) :
  forallb key_char s = true -> forallb is_ascii s = true.
Proof.
  rewrite !forallb_forall. intros H c Hc. specialize (H c Hc).
  unfold key_char in H. now destruct (is_ascii c).
Qed.

Lemma filter_all {A} (f : A -> bool) (l : list A) :
  forallb f l = true -> filter f l = l.
Proof.
  induction l as [|a l IH]; simpl; [reflexivity|].
  intros H. apply andb_true_iff in H. destruct H as [Ha Hl].
  rewrite Ha. f_equal. now apply IH.
Qed.

Lemma forallb_impl {A} (f g : A -> bool) (l : list A) :
  (forall a, f a = true -> g a = true) ->
  forallb f l = true -> forallb g l = true.
Proof.
  intros Hfg. rewrite !forallb_forall. intros H a Ha. apply Hfg, H, Ha.
Qed.

Lemma map_fixed {A} (f : A -> A) (eqb : A -> A -> bool) (l : list A) :
  (forall a b, eqb a b = true -> a = b) ->
  forallb (fun a => eqb (f a) a) l = true -> map f l = l.
Proof.
  intros Heq. induction l as [|a l IH]; simpl; [reflexivity|].
  intros H. apply andb_true_iff in H. destruct H as [Ha Hl].
  f_equal; [now apply Heq | now apply IH].
Qed.

(** A key (ASCII, lower case, free of whitespace) is left as it is by the
    steps that follow the decomposition. *)
Lemma fold_steps_fix_key (s : pystr) :
  forallb key_char s = true ->
  strip_all_whitespace (py_lower (ascii_ignore s)) = s.
Proof.
  intros H. unfold strip_all_whitespace, py_lower, ascii_ignore.
  rewrite (filter_all is_ascii), (map_fixed lower_cp N.eqb), filter_all;
    try reflexivity.
  - revert H. apply forallb_impl. intros c. unfold key_char.
    now destruct (is_ascii c), (lower_cp c =? c), (is_space c).
  - intros a b. apply N.eqb_eq.
  - revert H. apply forallb_impl. intros c. unfold key_char.
    now destruct (is_ascii c), (lower_cp c =? c).
  - now apply key_chars_ascii.
Qed.

Hypothesis nfkd_ascii : nfkd_fixes_ascii nfkd.

Lemma normalize_key (s : pystr) :
  forallb key_char s = true -> normalize s = s.
Proof using nfkd_ascii.
  intros H. unfold normalize_text_for_matching.
  destruct s as [|c s]; [reflexivity|]. cbn [truthy negb].
  cbv zeta. rewrite (nfkd_ascii _ (key_chars_ascii _ H)).
  now apply fold_steps_fix_key.
Qed.

(** C9: for every text [x], [normalize (normalize x) = normalize x]; the
    decomposition leaves ASCII text as it is. *)
Theorem normalize_idempotent (x : pystr) :
  normalize (normalize x) = normalize x.
Proof using nfkd_ascii. apply normalize_key, normalize_key_chars. Qed.

End NormalizerFacts.

Lemma normalize_idempotent_witness :
  normalize_text_for_matching nfkd_fragment sample_text = lit "ecolea"
  /\ normalize_text_for_matching nfkd_fragment
       (normalize_text_for_matching nfkd_fragment sample_text)
     = normalize_text_for_matching nfkd_fragment sample_text.
Proof.
  split; [reflexivity|].
  apply (normalize_idempotent nfkd_fragment nfkd_fragment_fixes_ascii).
Defined.

(** ** Lists kept at their first occurrence *)

Lemma keep_first_ext (s1 s2 l : list pystr) :
  (forall x, In x s1 <-> In x s2) -> keep_first s1 l = keep_first s2 l.
Proof.
  revert s1 s2. induction l as [|x l IH]; intros s1 s2 H; simpl; [reflexivity|].
  destruct (py_in_list x s1) eqn:E1, (py_in_list x s2) eqn:E2.
  - now apply IH.
  - apply py_in_list_In, H, py_in_list_In in E1. congruence.
  - apply py_in_list_In, H, py_in_list_In in E2. congruence.
  - f_equal. apply IH. intros y. simpl. now rewrite H.
Qed.

Lemma keep_first_In (s l : list pystr) (x : pystr) :
  In x (keep_first s l) <-> In x l /\ ~ In x s.
Proof.
  revert s. induction l as [|y l IH]; intros s; simpl; [tauto|].
  destruct (py_in_list y s) eqn:E.
  - apply py_in_list_In in E. rewrite IH. split.
    + tauto.
    + intros [[-> | H] Hn]; tauto.
  - assert (Hy : ~ In y s) by (rewrite <- py_in_list_In; congruence).
    simpl. rewrite IH. simpl. split.
    + intros [-> | [H Hn]]; tauto.
    + intros [[-> | H] Hn]; [now left|].
      destruct (list_eq_dec N.eq_dec y x); [now left | right; tauto].
Qed.

Lemma keep_first_NoDup (s l : list pystr) : NoDup (keep_first s l).
Proof.
  revert s. induction l as [|y l IH]; intros s; simpl; [constructor|].
  destruct (py_in_list y s); [apply IH|].
  constructor; [|apply IH].
  rewrite keep_first_In. simpl. tauto.
Qed.

Lemma keep_first_app (s l1 l2 : list pystr) :
  keep_first s (l1 ++ l2)
  = keep_first s l1 ++ keep_first (s ++ keep_first s l1) l2.
Proof.
  revert s. induction l1 as [|x l1 IH]; intros s; simpl.
  - now rewrite app_nil_r.
  - destruct (py_in_list x s); [apply IH|].
    simpl. f_equal. rewrite IH. f_equal. apply keep_first_ext.
    intros y. rewrite !in_app_iff. simpl. tauto.
Qed.

Lemma keep_first_nil_iff (l : list pystr) : keep_first [] l = [] <-> l = [].
Proof.
  destruct l; simpl; split; intros H; try reflexivity; discriminate.
Qed.

(** ** NameResolver *)

Lemma first_such_unique {A} (P : A -> bool) (l : list A) (x y : A) :
  first_such P l x -> first_such P l y -> x = y.
Proof.
  intros [b1 [a1 [E1 [P1 N1]]]] [b2 [a2 [E2 [P2 N2]]]]. subst l.
  revert b2 E2 N2. induction b1 as [|z b1 IH]; intros b2 E2 N2.
  - destruct b2 as [|z b2]; simpl in E2; injection E2 as E2 _; [assumption|].
    subst z. rewrite (N2 x) in P1; [discriminate | now left].
  - destruct b2 as [|z' b2]; simpl in E2; injection E2 as E2 E2'.
    + subst z. rewrite (N1 y) in P2; [discriminate | now left].
    + apply (IH (fun w Hw => N1 w (or_intror Hw)) b2 E2').
      intros w Hw. apply N2. now right.
Qed.

Lemma first_such_head {A} (P : A -> bool) (x : A) (l : list A) :
  P x = true -> first_such P (x :: l) x.
Proof. intros H. exists [], l. repeat split; [assumption | intros y []]. Qed.

Lemma first_such_tail {A} (P : A -> bool) (x y : A) (l : list A) :
  P y = false -> first_such P l x -> first_such P (y :: l) x.
Proof.
  intros Hy [b [a [E [Px N]]]]. exists (y :: b), a. subst l.
  repeat split; [assumption|]. intros z [<- | Hz]; [assumption | now apply N].
Qed.

Lemma first_such_find {A} (P : A -> bool) (l : list A) (x : A) :
  find P l = Some x <-> first_such P l x.
Proof.
  split.
  - induction l as [|y l IH]; simpl; [discriminate|].
    destruct (P y) eqn:E.
    + intros [= ->]. now apply first_such_head.
    + intros H. apply first_such_tail; [assumption | now apply IH].
  - intros [b [a [-> [Px N]]]]. induction b as [|y b IH]; simpl.
    + now rewrite Px.
    + rewrite (N y (or_introl eq_refl)). apply IH.
      intros z Hz. apply N. now right.
Qed.

Lemma find_none_iff {A} (P : A -> bool) (l : list A) :
  find P l = None <-> forall y, In y l -> P y = false.
Proof.
  split; [apply find_none|].
  induction l as [|y l IH]; simpl; intros H; [reflexivity|].
  rewrite (H y (or_introl eq_refl)). apply IH. intros z Hz. apply H. now right.
Qed.

Section ColumnResolverFacts.

Variable nfkd : pystr -> pystr.
Local Abbreviation normalize := (normalize_text_for_matching nfkd).

Lemma sheet_loop_find (p : pystr) (l : list pystr) :
  sheet_loop nfkd (normalize p) l = find (prefix_match nfkd p) l.
Proof.
  induction l as [|c l IH]; simpl; [reflexivity|].
  unfold prefix_match at 1. now destruct (startswith _ _).
Qed.

Lemma column_loop_keep_first (p : pystr) (cols sel : list pystr) :
  column_loop nfkd (normalize p) cols sel
  = sel ++ keep_first sel (filter (prefix_match nfkd p) cols).
Proof.
  revert sel. induction cols as [|c cols IH]; intros sel; simpl.
  - now rewrite app_nil_r.
  - unfold prefix_match at 1.
    destruct (startswith (normalize c) (normalize p)); [|apply IH].
    simpl. destruct (py_in_list c sel); simpl; [apply IH|].
    rewrite IH, <- app_assoc. simpl. do 2 f_equal.
    apply keep_first_ext. intros y. rewrite in_app_iff. simpl. tauto.
Qed.

Lemma prefix_loop_keep_first (ps cols sel : list pystr) :
  prefix_loop nfkd (map normalize ps) cols sel
  = sel ++ keep_first sel (all_matches nfkd cols ps).
Proof.
  revert sel. induction ps as [|p ps IH]; intros sel; simpl.
  - now rewrite app_nil_r.
  - rewrite IH, column_loop_keep_first, <- app_assoc. f_equal.
    unfold all_matches. simpl. now rewrite keep_first_app.
Qed.

Lemma get_resilient_column_names_keep_first (cols ps : list pystr) :
  get_resilient_column_names nfkd cols ps
  = keep_first [] (all_matches nfkd cols ps).
Proof. unfold get_resilient_column_names. apply prefix_loop_keep_first. Qed.

Lemma all_matches_In (cols ps : list pystr) (c : pystr) :
  In c (all_matches nfkd cols ps)
  <-> In c cols /\ exists p, In p ps /\ prefix_match nfkd p c = true.
Proof.
  unfold all_matches. rewrite in_flat_map. split.
  - intros [p [Hp Hc]]. apply filter_In in Hc. destruct Hc as [Hc Hm].
    split; [assumption | now exists p].
  - intros [Hc [p [Hp Hm]]]. exists p. split; [assumption|].
    apply filter_In. now split.
Qed.

Lemma get_resilient_column_names_In (cols ps : list pystr) (c : pystr) :
  In c (get_resilient_column_names nfkd cols ps)
  <-> In c cols /\ exists p, In p ps /\ prefix_match nfkd p c = true.
Proof.
  rewrite get_resilient_column_names_keep_first, keep_first_In, all_matches_In.
  simpl. tauto.
Qed.

Lemma get_resilient_column_names_nil (cols ps : list pystr) :
  get_resilient_column_names nfkd cols ps = []
  <-> forall p c, In p ps -> In c cols -> prefix_match nfkd p c = false.
Proof.
  split.
  - intros H p c Hp Hc.
    destruct (prefix_match nfkd p c) eqn:E; [|reflexivity].
    assert (Hin : In c (get_resilient_column_names nfkd cols ps))
      by (apply get_resilient_column_names_In; split;
          [assumption | now exists p]).
    rewrite H in Hin. destruct Hin.
  - intros H.
    destruct (get_resilient_column_names nfkd cols ps) as [|c l] eqn:E;
      [reflexivity|].
    assert (Hin : In c (get_resilient_column_names nfkd cols ps))
      by (rewrite E; now left).
    apply get_resilient_column_names_In in Hin.
    destruct Hin as [Hc [p [Hp Hm]]].
    rewrite (H p c Hp Hc) in Hm. discriminate.
Qed.

(** C2 (amended): for every list of prefixes and every list of candidates,
    [get_resilient_column_names] goes through the prefixes in the order given
    and collects, for each prefix, every candidate in source order whose
    normalized form starts with the normalized prefix, skipping a candidate
    that is already collected; the result has no duplicates, holds exactly
    the candidates that match some prefix, and is empty exactly when no
    candidate matches any prefix. *)
Theorem get_resilient_column_names_all_matches (cols ps : list pystr) :
  get_resilient_column_names nfkd cols ps
  = keep_first [] (all_matches nfkd cols ps)
  /\ NoDup (get_resilient_column_names nfkd cols ps)
  /\ (forall c, In c (get_resilient_column_names nfkd cols ps)
                <-> In c cols
                    /\ exists p, In p ps /\ prefix_match nfkd p c = true)
  /\ (get_resilient_column_names nfkd cols ps = []
      <-> forall p c, In p ps -> In c cols -> prefix_match nfkd p c = false).
Proof.
  split; [apply get_resilient_column_names_keep_first|].
  split; [rewrite get_resilient_column_names_keep_first;
          apply keep_first_NoDup|].
  split; [intros c; apply get_resilient_column_names_In|].
  apply get_resilient_column_names_nil.
Qed.

End ColumnResolverFacts.

Section ResolverFacts.

Variable nfkd : pystr -> pystr.
Variable str_of_list : list pystr -> pystr.
Variable spark : SparkEngine.
Local Abbreviation normalize := (normalize_text_for_matching nfkd).

Lemma find_resilient_sheet_name_eq (wb : Workbook) (path p : pystr) :
  find_resilient_sheet_name nfkd str_of_list (File wb) path p
  = match find (prefix_match nfkd p) (sheetnames wb) with
    | Some c => Ok c
    | None =>
        Raise (mk_exn Exception
                 (lit "Could not enumerate sheets from Excel file '"
                  ++ path ++ lit "'. Original error: "
                  ++ sheet_not_found_msg str_of_list p (normalize p) path
                       (sheetnames wb)))
    end.
Proof.
  unfold find_resilient_sheet_name. cbv zeta. rewrite sheet_loop_find.
  now destruct (find _ _).
Qed.

Lemma carries_here (x rest : pystr) : carries (x ++ rest) x.
Proof. now exists [], rest. Qed.

Lemma carries_refl (x : pystr) : carries x x.
Proof. exists [], []. now rewrite app_nil_r. Qed.

Lemma carries_skip (pre msg x : pystr) : carries msg x -> carries (pre ++ msg) x.
Proof.
  intros [a [b ->]]. exists (pre ++ a), b. now rewrite <- app_assoc.
Qed.

Hypothesis nfkd_ascii : nfkd_fixes_ascii nfkd.

(** On ASCII text the decomposition plays no part. *)
Lemma normalize_ascii_text (s : pystr) :
  forallb is_ascii s = true ->
  normalize s = normalize_text_for_matching (fun x => x) s.
Proof using nfkd_ascii.
  intros H. unfold normalize_text_for_matching. now rewrite (nfkd_ascii s H).
Qed.

Lemma normalize_for_substring_search_ascii_text (s : pystr) :
  forallb is_ascii s = true ->
  normalize_for_substring_search nfkd s
  = normalize_for_substring_search (fun x => x) s.
Proof using nfkd_ascii.
  intros H. unfold normalize_for_substring_search.
  now rewrite (nfkd_ascii s H).
Qed.

(** C6: [find_resilient_sheet_name] returns a candidate exactly when it is
    the first one, in source order, whose normalized form starts with the
    normalized prefix (a prefix test, not an equality); with the candidates
    ["Flag (old)"; "Flagged v2"] and the prefix "flag" both match and
    "Flag (old)" is returned. *)
Theorem find_resilient_sheet_name_first_match :
  (forall p c, prefix_match nfkd p c = true
               <-> exists rest, normalize c = normalize p ++ rest)
  /\ (forall wb path p c,
        find_resilient_sheet_name nfkd str_of_list (File wb) path p = Ok c
        <-> first_such (prefix_match nfkd p) (sheetnames wb) c)
  /\ (forall wb path,
        sheetnames wb = [lit "Flag (old)"; lit "Flagged v2"] ->
        prefix_match nfkd (lit "flag") (lit "Flag (old)") = true
        /\ prefix_match nfkd (lit "flag") (lit "Flagged v2") = true
        /\ find_resilient_sheet_name nfkd str_of_list (File wb) path
             (lit "flag") = Ok (lit "Flag (old)")).
Proof using nfkd_ascii.
  split; [|split].
  - intros p c. apply startswith_spec.
  - intros wb path p c. rewrite find_resilient_sheet_name_eq.
    rewrite <- first_such_find. destruct (find _ _); split; congruence.
  - intros wb path Hs.
    assert (H1 : prefix_match nfkd (lit "flag") (lit "Flag (old)") = true)
      by (unfold prefix_match; now rewrite !normalize_ascii_text).
    assert (H2 : prefix_match nfkd (lit "flag") (lit "Flagged v2") = true)
      by (unfold prefix_match; now rewrite !normalize_ascii_text).
    repeat split; try assumption.
    rewrite find_resilient_sheet_name_eq, Hs. simpl. now rewrite H1.
Qed.

(** C10: when the raw target prefix normalizes to the empty string, every
    candidate passes the prefix test; sheet resolution returns the first
    sheet of a non-empty list and fails exactly when the list is empty, and
    the column resolver puts the first header first and returns nothing
    exactly when there is no header. *)
Theorem empty_prefix_matches_everything (p : pystr) :
  normalize p = [] ->
  (forall c, prefix_match nfkd p c = true)
  /\ (forall wb path c later,
        sheetnames wb = c :: later ->
        find_resilient_sheet_name nfkd str_of_list (File wb) path p = Ok c)
  /\ (forall wb path,
        (exists e, find_resilient_sheet_name nfkd str_of_list (File wb) path p
                   = Raise e)
        <-> sheetnames wb = [])
  /\ (forall c later,
        get_resilient_column_names nfkd (c :: later) [p]
        = c :: keep_first [c] later)
  /\ (forall cols, get_resilient_column_names nfkd cols [p] = [] <-> cols = []).
Proof.
  intros Hp.
  assert (Hall : forall c, prefix_match nfkd p c = true)
    by (intros c; unfold prefix_match; rewrite Hp; apply startswith_nil).
  assert (Hfilter : forall cols, filter (prefix_match nfkd p) cols = cols)
    by (intros cols; apply filter_all, forallb_forall; intros c _; apply Hall).
  assert (Hcols : forall cols,
             get_resilient_column_names nfkd cols [p] = keep_first [] cols).
  { intros cols. rewrite get_resilient_column_names_keep_first.
    unfold all_matches. simpl. now rewrite app_nil_r, Hfilter. }
  split; [exact Hall|]. split; [|split; [|split]].
  - intros wb path c later Hs.
    rewrite find_resilient_sheet_name_eq, Hs. simpl. now rewrite Hall.
  - intros wb path. rewrite find_resilient_sheet_name_eq.
    destruct (sheetnames wb) as [|c later]; simpl.
    + split; [reflexivity | intros _; eexists; reflexivity].
    + rewrite Hall. split; [intros [e He]; discriminate | discriminate].
  - intros c later. now rewrite Hcols.
  - intros cols. rewrite Hcols. apply keep_first_nil_iff.
Qed.

Ltac carry :=
  repeat first [apply carries_here | apply carries_refl | apply carries_skip].

Lemma sheet_failure_message (wb : Workbook) (path p : pystr) :
  (forall s, In s (sheetnames wb) -> prefix_match nfkd p s = false) ->
  exists e,
    find_resilient_sheet_name nfkd str_of_list (File wb) path p = Raise e
    /\ carries (exn_msg e) p
    /\ carries (exn_msg e) (normalize p)
    /\ carries (exn_msg e) (str_of_list (sheetnames wb)).
Proof.
  intros H. apply find_none_iff in H.
  rewrite find_resilient_sheet_name_eq, H.
  eexists. split; [reflexivity|]. unfold sheet_not_found_msg. cbn [exn_msg].
  repeat split; carry.
Qed.

(** C7: when no candidate passes the prefix test, the exception raised by
    the sheet resolver, and the one [process_excel] ends with when the
    resolution of the sheet or of a required column is reached and finds no
    match, has a message that contains the raw target prefix, its normalized
    form and the list of the candidates. *)
Theorem resolution_failure_message :
  (forall wb path p,
      (forall s, In s (sheetnames wb) -> prefix_match nfkd p s = false) ->
      exists e,
        find_resilient_sheet_name nfkd str_of_list (File wb) path p = Raise e
        /\ carries (exn_msg e) p
        /\ carries (exn_msg e) (normalize p)
        /\ carries (exn_msg e) (str_of_list (sheetnames wb)))
  /\ (forall wb target candidates,
        resolution_fails nfkd spark wb target candidates ->
        forall path now st,
        exists e,
          process_excel nfkd str_of_list spark path (File wb) now st
          = (st, Raise e)
          /\ carries (exn_msg e) target
          /\ carries (exn_msg e) (normalize target)
          /\ carries (exn_msg e) (str_of_list candidates)).
Proof using nfkd_ascii.
  split; [exact sheet_failure_message|].
  intros wb target candidates Hf path now st.
  unfold process_excel, ingest. cbv zeta.
  destruct Hf as [Hs | sheet Hs Hrows Ha
                     | sheet a filter_column Hs Hrows Hhd Hres Hb].
  - destruct (sheet_failure_message wb path _ Hs) as [e [-> Hc]].
    now exists e.
  - apply first_such_find in Hs. rewrite find_resilient_sheet_name_eq, Hs.
    unfold createDataFrame.
    destruct (rows (read_sheet wb sheet)) as [|r0 others] eqn:Er;
      [contradiction|].
    assert (E : get_resilient_column_names nfkd
                  (columns (read_sheet wb sheet)) [lit "column_a"] = []).
    { apply get_resilient_column_names_nil.
      intros p c [<- | []] Hc. now apply Ha. }
    rewrite E. eexists. split; [reflexivity|].
    rewrite (normalize_key nfkd nfkd_ascii) by reflexivity.
    unfold column_not_found_msg. cbn [exn_msg]. repeat split; carry.
  - apply first_such_find in Hs. rewrite find_resilient_sheet_name_eq, Hs.
    unfold createDataFrame.
    destruct (rows (read_sheet wb sheet)) as [|r0 others] eqn:Er;
      [contradiction|].
    destruct (get_resilient_column_names nfkd
                (columns (read_sheet wb sheet)) [lit "column_a"])
      as [|a0 others_a] eqn:Ea; [discriminate|].
    injection Hhd as ->. unfold F_col. cbv zeta. rewrite Hres.
    assert (E : get_resilient_column_names nfkd
                  (columns (read_sheet wb sheet)) [lit "column_b"] = []).
    { apply get_resilient_column_names_nil.
      intros p c [<- | []] Hc. now apply Hb. }
    cbn [columns df_filter]. rewrite E. eexists. split; [reflexivity|].
    rewrite (normalize_key nfkd nfkd_ascii) by reflexivity.
    unfold column_not_found_msg. cbn [exn_msg]. repeat split; carry.
Qed.

End ResolverFacts.

(** ** FlagColumnHeuristic *)

Section FlagFacts.

Variable nfkd : pystr -> pystr.
Hypothesis nfkd_ascii : nfkd_fixes_ascii nfkd.
Local Abbreviation normalize := (normalize_text_for_matching nfkd).
Local Abbreviation loose := (normalize_for_substring_search nfkd).

Lemma flag_qualifies_truthy (h : pystr) :
  flag_qualifies nfkd h = true -> truthy h = true.
Proof. destruct h; [discriminate | reflexivity]. Qed.

Lemma flag_loop_settled (m1 m2 fp : pystr) (cols : list pystr) (x : pystr) :
  truthy x = true -> flag_loop nfkd m1 m2 fp cols (Some x) = Some x.
Proof.
  intros Hx. induction cols as [|c cols IH]; simpl; [reflexivity|].
  rewrite Hx, andb_false_r. now destruct (startswith _ _).
Qed.

Lemma flag_loop_find (cols : list pystr) :
  flag_loop nfkd (lit "marker1") (lit "marker2") (lit "flag") cols None
  = find (flag_qualifies nfkd) cols.
Proof.
  induction cols as [|c cols IH]; [reflexivity|].
  cbn [flag_loop find]. cbv zeta.
  destruct (flag_qualifies nfkd c) eqn:Q.
  - pose proof (flag_qualifies_truthy c Q) as Hc.
    unfold flag_qualifies in Q. apply andb_true_iff in Q. destruct Q as [Q1 Q2].
    rewrite Q1, Q2. simpl. now apply flag_loop_settled.
  - unfold flag_qualifies in Q. destruct (startswith _ _); [|apply IH].
    simpl in Q. rewrite Q. apply IH.
Qed.

Lemma find_flag_columns_for_aggregation_find (cols : list pystr) :
  find_flag_columns_for_aggregation nfkd cols
  = find (flag_qualifies nfkd) cols.
Proof using nfkd_ascii.
  unfold find_flag_columns_for_aggregation. cbv zeta.
  rewrite !(normalize_for_substring_search_ascii_text nfkd nfkd_ascii)
    by reflexivity.
  rewrite (normalize_key nfkd nfkd_ascii) by reflexivity.
  apply flag_loop_find.
Qed.

(** C3: [find_flag_columns_for_aggregation] returns a header exactly when it
    is the first one, in source order, whose normalized key starts with
    "flag" and whose looser normalization contains "marker1" or "marker2";
    the answer is one header at most, and it is [None] exactly when no
    header qualifies. *)
Theorem find_flag_columns_for_aggregation_first (cols : list pystr) :
  (forall h, find_flag_columns_for_aggregation nfkd cols = Some h
             <-> first_such (flag_qualifies nfkd) cols h)
  /\ (find_flag_columns_for_aggregation nfkd cols = None
      <-> forall h, In h cols -> flag_qualifies nfkd h = false).
Proof using nfkd_ascii.
  rewrite find_flag_columns_for_aggregation_find. split.
  - intros h. apply first_such_find.
  - apply find_none_iff.
Qed.

End FlagFacts.

Lemma find_flag_columns_for_aggregation_first_witness :
  find_flag_columns_for_aggregation nfkd_fragment
    [lit "Id"; lit "Flag Marker1 X"; lit "Flag Marker2 Y"]
  = Some (lit "Flag Marker1 X").
Proof.
  apply (find_flag_columns_for_aggregation_first
           nfkd_fragment nfkd_fragment_fixes_ascii).
  exists [lit "Id"], [lit "Flag Marker2 Y"].
  split; [reflexivity | split; [reflexivity|]].
  intros y [<- | []]. reflexivity.
Defined.

(** ** IngestionPipeline *)

Lemma trim_spaces (v : pystr) :
  forallb (fun c => c =? SPACE) v = true -> trim v = [].
Proof.
  intros H. unfold trim.
  assert (E : ltrim v = []).
  { induction v as [|c v IH]; simpl in *; [reflexivity|].
    apply andb_true_iff in H. destruct H as [Hc Hv]. rewrite Hc. now apply IH. }
  now rewrite E.
Qed.

Lemma valid_row_condition_true (cols : list pystr) (a : pystr) (r : list cell) :
  match valid_row_condition cols a r with Some true => true | _ => false end
  = row_is_valid cols a r.
Proof.
  unfold valid_row_condition, row_is_valid, isNotNull, col_neq, F_trim.
  destruct (cell_of cols r a) as [v|]; simpl; [|reflexivity].
  now destruct (pystr_eqb (trim v) []).
Qed.

Lemma df_filter_valid_rows (df : DataFrame) (a : pystr) :
  df_filter df (valid_row_condition (columns df) a)
  = mk_df (columns df) (filter (row_is_valid (columns df) a) (rows df)).
Proof.
  unfold df_filter. f_equal. apply filter_ext.
  intros r. apply valid_row_condition_true.
Qed.

Lemma row_is_valid_iff (cols : list pystr) (a : pystr) (r : list cell) :
  row_is_valid cols a r = true
  <-> exists v, cell_of cols r a = Some v /\ trim v <> [].
Proof.
  unfold row_is_valid. destruct (cell_of cols r a) as [v|].
  - rewrite negb_true_iff. split.
    + intros H. exists v. split; [reflexivity|].
      intros E. apply pystr_eqb_eq in E. congruence.
    + intros [v' [[= <-] Hv]]. destruct (pystr_eqb (trim v) []) eqn:E;
        [apply pystr_eqb_eq in E; contradiction | reflexivity].
  - split; [discriminate | intros [v [H _]]; discriminate].
Qed.

Lemma agg_count_non_null (df : DataFrame) (c : pystr) :
  agg_count df c
  = non_null_count (map (fun r => cell_of (columns df) r c) (rows df)).
Proof. reflexivity. Qed.

Lemma ltrim_nil (v : pystr) :
  ltrim v = [] -> forallb (fun c => c =? SPACE) v = true.
Proof.
  induction v as [|c v IH]; simpl; [reflexivity|].
  destruct (c =? SPACE); [exact IH | discriminate].
Qed.

Lemma ltrim_spaces (v : pystr) :
  forallb (fun c => c =? SPACE) v = true ->
  forallb (fun c => c =? SPACE) (ltrim v) = true.
Proof.
  induction v as [|c v IH]; simpl; [reflexivity|].
  intros H. apply andb_true_iff in H. destruct H as [Hc Hv].
  rewrite Hc. now apply IH.
Qed.

Lemma ltrim_fixed_or_nil (v : pystr) :
  ltrim (ltrim v) = ltrim v.
Proof.
  induction v as [|c v IH]; simpl; [reflexivity|].
  destruct (c =? SPACE) eqn:E; [exact IH|]. simpl. now rewrite E.
Qed.

(** A value is trimmed to nothing exactly when it holds space characters
    only. *)
Lemma trim_nil_iff (v : pystr) :
  trim v = [] <-> forallb (fun c => c =? SPACE) v = true.
Proof.
  split; [|apply trim_spaces].
  unfold trim. intros H.
  assert (H1 : ltrim (rev (ltrim v)) = [])
    by (apply (f_equal (@rev N)) in H; now rewrite rev_involutive in H).
  apply ltrim_nil in H1.
  assert (H2 : forallb (fun c => c =? SPACE) (ltrim v) = true).
  { rewrite forallb_forall in *. intros c Hc. apply H1. now apply -> in_rev. }
  destruct (ltrim v) as [|c t] eqn:E; [now apply ltrim_nil|].
  assert (Hc : (c =? SPACE) = true)
    by (simpl in H2; now apply andb_true_iff in H2).
  pose proof (ltrim_fixed_or_nil v) as F. rewrite E in F. simpl in F.
  rewrite Hc in F.
  assert (L : (List.length (ltrim t) <= List.length t)%nat).
  { clear. induction t as [|x t IH]; simpl; [lia|].
    destruct (x =? SPACE); simpl; lia. }
  rewrite F in L. simpl in L. lia.
Qed.

Section PipelineFacts.

Variable nfkd : pystr -> pystr.
Variable str_of_list : list pystr -> pystr.
Variable spark : SparkEngine.
Local Abbreviation normalize := (normalize_text_for_matching nfkd).

Lemma kept_rows_empty (df : DataFrame) (ca : pystr) :
  (0 <? df_count (mk_df (columns df) (kept_rows df ca)))%Z = false ->
  kept_rows df ca = [].
Proof.
  unfold df_count. cbn [rows]. intros H. apply Z.ltb_ge in H.
  destruct (kept_rows df ca); [reflexivity | simpl in H; lia].
Qed.

Lemma F_col_resolved (cols : list pystr) (h c : pystr) :
  resolve_column spark cols (quote_column_if_needed h) = Some c ->
  F_col spark cols h = Ok c.
Proof. intros H. unfold F_col. cbv zeta. now rewrite H. Qed.

Lemma F_col_Ok (cols : list pystr) (h c : pystr) :
  F_col spark cols h = Ok c ->
  resolve_column spark cols (quote_column_if_needed h) = Some c.
Proof.
  unfold F_col. cbv zeta.
  destruct (resolve_column spark cols (quote_column_if_needed h));
    [now intros [= ->] | discriminate].
Qed.

Lemma F_col_Raise (cols : list pystr) (h : pystr) (e : exn) :
  F_col spark cols h = Raise e ->
  exn_class e = AnalysisException
  /\ resolve_column spark cols (quote_column_if_needed h) = None.
Proof.
  unfold F_col. cbv zeta.
  destruct (resolve_column spark cols (quote_column_if_needed h));
    [discriminate | now intros [= <-]].
Qed.

(** The count of lines 206-213 once the flag reference is known to resolve. *)
Lemma compute_flagged_line_count_resolved (df : DataFrame) (ca : pystr)
      (cf : option pystr) :
  match chosen_flag nfkd (columns df) with
  | Some flag =>
      resolve_column spark (columns df) (quote_column_if_needed flag) = cf
      /\ cf <> None
  | None => cf = None
  end ->
  compute_flagged_line_count spark
    (mk_df (columns df) (kept_rows df ca))
    (df_count (mk_df (columns df) (kept_rows df ca)))
    (find_flag_columns_for_aggregation nfkd (columns df))
  = Ok (resolved_count df ca cf).
Proof.
  unfold chosen_flag, compute_flagged_line_count, resolved_count.
  destruct (find_flag_columns_for_aggregation nfkd (columns df)) as [c|];
    [|now intros ->].
  cbn [truthy_opt]. destruct (truthy c).
  - intros [Hr Hc]. destruct cf as [c'|]; [|contradiction].
    rewrite andb_true_r.
    destruct (0 <? _)%Z eqn:E.
    + cbn [columns]. now rewrite (F_col_resolved _ _ _ Hr).
    + now rewrite (kept_rows_empty _ _ E).
  - rewrite andb_false_r. now intros ->.
Qed.

(** A run that gets through every resolution writes the projection of the
    valid rows and returns the file name and the count. *)
Lemma ingest_resolved (path : pystr) (wb : Workbook) (st : Store)
      (sheet ca cb : pystr) (cf : option pystr) :
  run_resolves nfkd spark wb sheet ca cb cf ->
  ingest nfkd str_of_list spark path (File wb) st
  = (write_overwrite_intermediate st
       (resolved_table (read_sheet wb sheet) ca cb cf),
     Ok (basename path, resolved_count (read_sheet wb sheet) ca cf)).
Proof.
  intros [[Hs [Hrows [[a [Ha Hca]] [b [Hb Hcb]]]]] Hflag].
  unfold ingest. cbv zeta.
  apply first_such_find in Hs. rewrite find_resilient_sheet_name_eq, Hs.
  unfold createDataFrame.
  destruct (rows (read_sheet wb sheet)) as [|r0 others] eqn:Er;
    [contradiction|].
  destruct (get_resilient_column_names nfkd _ [lit "column_a"])
    as [|a0 others_a]; [discriminate|]. injection Ha as ->.
  rewrite (F_col_resolved _ _ _ Hca).
  destruct (get_resilient_column_names nfkd _ [lit "column_b"])
    as [|b0 others_b]; [discriminate|]. injection Hb as ->.
  rewrite df_filter_valid_rows. cbn [columns].
  change (filter (row_is_valid (columns (read_sheet wb sheet)) ca)
                 (rows (read_sheet wb sheet)))
    with (kept_rows (read_sheet wb sheet) ca).
  rewrite (compute_flagged_line_count_resolved _ ca cf Hflag).
  cbn [resolve_select app].
  rewrite (F_col_resolved _ _ _ Hca), (F_col_resolved _ _ _ Hcb).
  unfold chosen_flag in Hflag. unfold resolved_table.
  destruct (find_flag_columns_for_aggregation nfkd _) as [c|].
  - destruct (truthy c).
    + destruct Hflag as [Hr Hc]. destruct cf as [c'|]; [|contradiction].
      cbn [resolve_select]. now rewrite (F_col_resolved _ _ _ Hr).
    + subst cf. reflexivity.
  - subst cf. reflexivity.
Qed.

Lemma ingest_Ok_resolves (path : pystr) (wb : Workbook) (st st' : Store)
      (x : pystr * Z) :
  ingest nfkd str_of_list spark path (File wb) st = (st', Ok x) ->
  exists sheet ca cb cf, run_resolves nfkd spark wb sheet ca cb cf.
Proof.
  unfold ingest. cbv zeta. rewrite find_resilient_sheet_name_eq.
  destruct (find _ (sheetnames wb)) as [sheet|] eqn:Hs; [|discriminate].
  unfold createDataFrame.
  destruct (rows (read_sheet wb sheet)) as [|r0 others] eqn:Er;
    [discriminate|].
  destruct (get_resilient_column_names nfkd _ [lit "column_a"])
    as [|a others_a] eqn:Ea; [discriminate|].
  destruct (F_col spark (columns (read_sheet wb sheet)) a) as [ca|e] eqn:Ha;
    [|discriminate].
  destruct (get_resilient_column_names nfkd _ [lit "column_b"])
    as [|b others_b] eqn:Eb; [discriminate|].
  cbn [columns df_filter resolve_select app]. rewrite Ha.
  destruct (F_col spark (columns (read_sheet wb sheet)) b) as [cb|e] eqn:Hb;
    [|discriminate].
  intros H.
  assert (Hflag : exists cf,
             match chosen_flag nfkd (columns (read_sheet wb sheet)) with
             | Some flag =>
                 resolve_column spark (columns (read_sheet wb sheet))
                                (quote_column_if_needed flag) = cf
                 /\ cf <> None
             | None => cf = None
             end).
  { unfold chosen_flag.
    destruct (find_flag_columns_for_aggregation nfkd _) as [c|];
      [|now exists None].
    destruct (truthy c); [|now exists None].
    cbn [resolve_select] in H.
    destruct (F_col spark (columns (read_sheet wb sheet)) c) as [c'|e] eqn:Hc;
      [|discriminate].
    apply F_col_Ok in Hc. exists (Some c'). split; [assumption | discriminate]. }
  destruct Hflag as [cf Hflag].
  exists sheet, ca, cb, cf. split; [|exact Hflag].
  unfold required_resolve. cbv zeta.
  split; [now apply first_such_find|].
  split; [rewrite Er; discriminate|].
  split; [exists a; rewrite Ea; split; [reflexivity | now apply F_col_Ok]|].
  exists b. rewrite Eb. split; [reflexivity | now apply F_col_Ok].
Qed.

(** What a run that returns has done. *)
Lemma ingest_Ok (path : pystr) (wb : Workbook) (st st' : Store)
      (f : pystr) (n : Z) :
  ingest nfkd str_of_list spark path (File wb) st = (st', Ok (f, n)) ->
  exists sheet ca cb cf,
    run_resolves nfkd spark wb sheet ca cb cf
    /\ st' = write_overwrite_intermediate st
               (resolved_table (read_sheet wb sheet) ca cb cf)
    /\ f = basename path
    /\ n = resolved_count (read_sheet wb sheet) ca cf.
Proof.
  intros H. destruct (ingest_Ok_resolves _ _ _ _ _ H) as [sheet [ca [cb [cf R]]]].
  exists sheet, ca, cb, cf. split; [exact R|].
  rewrite (ingest_resolved path wb st _ _ _ _ R) in H.
  now injection H as <- <- <-.
Qed.

(** C5 (amended): in a run that returns, the rows written to the
    intermediate table are the projections of the rows of the sheet that pass
    the filter, the filter being evaluated on the column that the reference
    to the original header resolved for [column_a] denotes: a row passes
    exactly when its cell in that column is not NULL and is not empty once
    the space characters at both ends are removed.  A cell of space
    characters only excludes its row; a cell that holds any other character,
    a TAB for one, keeps it. *)
Theorem valid_rows_filtered_before_projection
        (path : pystr) (wb : Workbook) (st st' : Store) (f : pystr) (n : Z) :
  ingest nfkd str_of_list spark path (File wb) st = (st', Ok (f, n)) ->
  exists sheet a ca exprs table,
    first_such (prefix_match nfkd (lit "sheet_prefix_to_find"))
               (sheetnames wb) sheet
    /\ hd_error (get_resilient_column_names nfkd
                   (columns (read_sheet wb sheet)) [lit "column_a"]) = Some a
    /\ In a (columns (read_sheet wb sheet))
    /\ resolve_column spark (columns (read_sheet wb sheet))
                      (quote_column_if_needed a) = Some ca
    /\ hd_error exprs = Some (ca, lit "column_a")
    /\ intermediate_table st' = Some table
    /\ let cols := columns (read_sheet wb sheet) in
       let kept := filter (row_is_valid cols ca) (rows (read_sheet wb sheet)) in
       table = df_select (mk_df cols kept) exprs
       /\ rows table
          = map (fun r => map (fun e => cell_of cols r (fst e)) exprs) kept
       /\ (forall r, In r kept
                     <-> In r (rows (read_sheet wb sheet))
                         /\ exists v, cell_of cols r ca = Some v /\ trim v <> [])
       /\ (forall r v, cell_of cols r ca = Some v ->
                       forallb (fun c => c =? SPACE) v = true ->
                       ~ In r kept)
       /\ (forall r, cell_of cols r ca = None -> ~ In r kept)
       /\ (forall r v c, In r (rows (read_sheet wb sheet)) ->
                         cell_of cols r ca = Some v ->
                         In c v -> c <> SPACE ->
                         In r kept).
Proof.
  intros H. apply ingest_Ok in H.
  destruct H as [sheet [ca [cb [cf [[[Hs [_ [[a [Ha Hca]] _]]] _] [-> _]]]]]].
  exists sheet, a, ca,
    ([(ca, lit "column_a"); (cb, lit "column_b")]
     ++ match cf with Some c => [(c, lit "flag")] | None => [] end),
    (resolved_table (read_sheet wb sheet) ca cb cf).
  split; [exact Hs|]. split; [exact Ha|].
  split.
  { destruct (get_resilient_column_names nfkd
                (columns (read_sheet wb sheet)) [lit "column_a"])
      as [|a0 others] eqn:E; [discriminate|]. injection Ha as ->.
    assert (Hin : In a (get_resilient_column_names nfkd
                          (columns (read_sheet wb sheet)) [lit "column_a"]))
      by (rewrite E; now left).
    apply get_resilient_column_names_In in Hin. exact (proj1 Hin). }
  split; [exact Hca|]. split; [reflexivity|]. split; [reflexivity|].
  cbv zeta. split; [reflexivity|]. split; [reflexivity|].
  split; [|split; [|split]].
  - intros r. rewrite filter_In, row_is_valid_iff. tauto.
  - intros r v Hc Hv Hin. apply filter_In in Hin. destruct Hin as [_ Hin].
    apply row_is_valid_iff in Hin. destruct Hin as [v' [Hc' Hv']].
    rewrite Hc in Hc'. injection Hc' as <-.
    now apply Hv', trim_spaces.
  - intros r Hc Hin. apply filter_In in Hin. destruct Hin as [_ Hin].
    apply row_is_valid_iff in Hin. destruct Hin as [v [Hc' _]].
    congruence.
  - intros r v c Hr Hc Hin Hne. apply filter_In. split; [exact Hr|].
    apply row_is_valid_iff. exists v. split; [exact Hc|].
    intros E. apply trim_nil_iff in E. rewrite forallb_forall in E.
    apply E in Hin. apply N.eqb_eq in Hin. contradiction.
Qed.

Hypothesis nfkd_ascii : nfkd_fixes_ascii nfkd.

Lemma chosen_flag_eq (cols : list pystr) :
  chosen_flag nfkd cols = find_flag_columns_for_aggregation nfkd cols.
Proof using nfkd_ascii.
  unfold chosen_flag.
  destruct (find_flag_columns_for_aggregation nfkd cols) as [c|] eqn:E;
    [|reflexivity].
  rewrite (find_flag_columns_for_aggregation_find nfkd nfkd_ascii) in E.
  apply find_some in E. destruct E as [_ Q].
  now rewrite (flag_qualifies_truthy nfkd c Q).
Qed.

(** C4: a run that gets through the sheet and the two required columns
    returns, whether or not the sheet has a flag column.  When the heuristic
    finds no flag column the run raises nothing and its [flagged_line_count]
    is zero; when it finds one, the count is the number of cells that are
    not NULL in the column the flag reference denotes, over the rows that
    passed the validity filter.  Every run that returns is of one of these
    two kinds, and the count is the one the history gate is called with. *)
Theorem flagged_line_count_counts_valid_rows
        (path : pystr) (wb : Workbook) (st : Store) :
  (forall sheet ca cb,
      required_resolve nfkd spark wb sheet ca cb ->
      find_flag_columns_for_aggregation nfkd (columns (read_sheet wb sheet))
      = None ->
      exists st',
        ingest nfkd str_of_list spark path (File wb) st
        = (st', Ok (basename path, 0%Z))
        /\ forall now,
             process_excel nfkd str_of_list spark path (File wb) now st
             = (history_gate (basename path) now 0%Z st', Ok tt))
  /\ (forall sheet ca cb flag c,
        required_resolve nfkd spark wb sheet ca cb ->
        find_flag_columns_for_aggregation nfkd (columns (read_sheet wb sheet))
        = Some flag ->
        resolve_column spark (columns (read_sheet wb sheet))
                       (quote_column_if_needed flag) = Some c ->
        let cols := columns (read_sheet wb sheet) in
        let kept := filter (row_is_valid cols ca) (rows (read_sheet wb sheet)) in
        let n := non_null_count (map (fun r => cell_of cols r c) kept) in
        exists st',
          ingest nfkd str_of_list spark path (File wb) st
          = (st', Ok (basename path, n))
          /\ forall now,
               process_excel nfkd str_of_list spark path (File wb) now st
               = (history_gate (basename path) now n st', Ok tt))
  /\ (forall st' f n,
        ingest nfkd str_of_list spark path (File wb) st = (st', Ok (f, n)) ->
        exists sheet ca cb,
          required_resolve nfkd spark wb sheet ca cb
          /\ let cols := columns (read_sheet wb sheet) in
             let kept :=
               filter (row_is_valid cols ca) (rows (read_sheet wb sheet)) in
             match find_flag_columns_for_aggregation nfkd cols with
             | None => n = 0%Z
             | Some flag =>
                 exists c,
                   resolve_column spark cols (quote_column_if_needed flag)
                   = Some c
                   /\ n = non_null_count (map (fun r => cell_of cols r c) kept)
             end).
Proof using nfkd_ascii.
  assert (P : forall x st1,
             ingest nfkd str_of_list spark path (File wb) st = (st1, Ok x) ->
             forall now,
               process_excel nfkd str_of_list spark path (File wb) now st
               = (history_gate (fst x) now (snd x) st1, Ok tt))
    by (intros [f n] st1 E now; unfold process_excel; now rewrite E).
  split; [|split].
  - intros sheet ca cb R Hnone.
    assert (RR : run_resolves nfkd spark wb sheet ca cb None)
      by (split; [exact R | now rewrite chosen_flag_eq, Hnone]).
    pose proof (ingest_resolved path wb st _ _ _ _ RR) as E.
    eexists. split; [exact E|]. exact (P _ _ E).
  - intros sheet ca cb flag c R Hflag Hc. cbv zeta.
    assert (RR : run_resolves nfkd spark wb sheet ca cb (Some c))
      by (split; [exact R | rewrite chosen_flag_eq, Hflag; now split]).
    pose proof (ingest_resolved path wb st _ _ _ _ RR) as E.
    eexists. split; [exact E|]. exact (P _ _ E).
  - intros st' f n H. apply ingest_Ok in H.
    destruct H as [sheet [ca [cb [cf [[R Hflag] [_ [_ ->]]]]]]].
    exists sheet, ca, cb. split; [exact R|]. cbv zeta.
    rewrite chosen_flag_eq in Hflag.
    destruct (find_flag_columns_for_aggregation nfkd _) as [flag|].
    + destruct Hflag as [Hr Hn]. destruct cf as [c|]; [|contradiction].
      now exists c.
    + now subst cf.
Qed.

End PipelineFacts.

(** ** HistoryGate *)

Lemma pystr_ltb_irrefl (a : pystr) : pystr_ltb a a = false.
Proof.
  induction a as [|x a IH]; simpl; [reflexivity|].
  now rewrite N.ltb_irrefl, N.eqb_refl, IH.
Qed.

Lemma pystr_ltb_trans (a b c : pystr) :
  pystr_ltb a b = true -> pystr_ltb b c = true -> pystr_ltb a c = true.
Proof.
  revert b c. induction a as [|x a IH]; intros [|y b] [|z c]; simpl;
    try discriminate; try reflexivity.
  rewrite !orb_true_iff, !andb_true_iff, !N.ltb_lt, !N.eqb_eq.
  intros [Hxy | [-> Hab]] [Hyz | [-> Hbc]].
  - left. lia.
  - now left.
  - now left.
  - right. split; [reflexivity | now apply (IH b)].
Qed.

Lemma pystr_ltb_total (a b : pystr) :
  pystr_ltb a b = true \/ a = b \/ pystr_ltb b a = true.
Proof.
  revert b. induction a as [|x a IH]; intros [|y b]; simpl; auto.
  rewrite !orb_true_iff, !andb_true_iff, !N.ltb_lt, !N.eqb_eq.
  destruct (N.lt_trichotomy x y) as [H | [-> | H]]; [now auto | | now auto].
  destruct (IH b) as [H | [-> | H]]; auto.
Qed.

(** The order on timestamps is a strict weak order: what is not below the
    maximum of the rest is above everything the maximum is above. *)
Lemma timestamp_ltb_between (a b c : option pystr) :
  timestamp_ltb a c = true ->
  timestamp_ltb a b = true \/ timestamp_ltb b c = true.
Proof.
  destruct a as [a|], b as [b|], c as [c|]; simpl; auto.
  intros H. destruct (pystr_ltb_total a b) as [Hab | [-> | Hba]]; auto.
  right. now apply (pystr_ltb_trans b a c).
Qed.

Lemma timestamp_ltb_asym (a b : option pystr) :
  timestamp_ltb a b = true -> timestamp_ltb b a = false.
Proof.
  destruct a as [a|], b as [b|]; simpl; auto.
  intros H. destruct (pystr_ltb b a) eqn:E; [|reflexivity].
  pose proof (pystr_ltb_trans a b a H E) as C.
  now rewrite pystr_ltb_irrefl in C.
Qed.

Lemma timestamp_ltb_irrefl (a : option pystr) : timestamp_ltb a a = false.
Proof. destruct a as [a|]; simpl; [apply pystr_ltb_irrefl | reflexivity]. Qed.

Lemma latest_row_nonempty (r : HistoryRow) (tbl : list HistoryRow) :
  latest_row (r :: tbl) <> None.
Proof.
  simpl. destruct (latest_row tbl); [|discriminate].
  destruct (timestamp_ltb _ _); discriminate.
Qed.

(** The row that the query returns is a row of the table and no row of the
    table has a later timestamp. *)
Lemma latest_row_most_recent (tbl : list HistoryRow) (r : HistoryRow) :
  latest_row tbl = Some r ->
  In r tbl
  /\ forall r', In r' tbl ->
       timestamp_ltb (processing_timestamp r) (processing_timestamp r') = false.
Proof.
  revert r. induction tbl as [|x tbl IH]; intros r; [discriminate|].
  simpl. destruct (latest_row tbl) as [m|] eqn:Em.
  - destruct (IH m eq_refl) as [Hin Hmax].
    destruct (timestamp_ltb (processing_timestamp x) (processing_timestamp m))
      eqn:E; intros [= <-].
    + split; [now right|]. intros r' [<- | Hr'].
      * now apply timestamp_ltb_asym.
      * now apply Hmax.
    + split; [now left|]. intros r' [<- | Hr'].
      * apply timestamp_ltb_irrefl.
      * destruct (timestamp_ltb (processing_timestamp x)
                                (processing_timestamp r')) eqn:E'; [|reflexivity].
        destruct (timestamp_ltb_between _ (processing_timestamp m) _ E')
          as [C | C]; [congruence|].
        rewrite (Hmax r' Hr') in C. discriminate.
  - intros [= <-]. destruct tbl as [|y tbl].
    + split; [now left|]. intros r' [<- | []]. apply timestamp_ltb_irrefl.
    + now apply latest_row_nonempty in Em.
Qed.

Lemma last_record_changed_false (history : option (list HistoryRow))
      (f : pystr) (n : Z) :
  last_record_changed history f n = false
  <-> exists tbl r,
        history = Some tbl /\ latest_row tbl = Some r
        /\ filename r = Some f /\ flagged_line_count r = Some n.
Proof.
  unfold last_record_changed, query_latest_history. split.
  - destruct history as [tbl|]; [|discriminate].
    destruct (latest_row tbl) as [r|] eqn:Hr; [|discriminate].
    cbn [fst snd]. unfold str_eq_field, int_eq_field.
    destruct (filename r) as [f'|] eqn:Hf; [|discriminate].
    destruct (flagged_line_count r) as [n'|] eqn:Hn;
      [|rewrite andb_false_r; discriminate].
    destruct (pystr_eqb f f') eqn:Ef; [|discriminate].
    destruct (Z.eqb n n') eqn:En; [|discriminate].
    intros _. apply pystr_eqb_eq in Ef. apply Z.eqb_eq in En. subst.
    now exists tbl, r.
  - intros [tbl [r [-> [-> [Hf Hn]]]]]. cbn [fst snd]. rewrite Hf, Hn.
    unfold str_eq_field, int_eq_field.
    now rewrite pystr_eqb_refl, Z.eqb_refl.
Qed.

Lemma write_append_history_changes (st : Store) (r : HistoryRow) :
  write_append_history st r <> st.
Proof.
  destruct st as [i [tbl|]]; unfold write_append_history; simpl;
    intros [= E].
  apply (f_equal (@List.length _)) in E. rewrite length_app in E. simpl in E.
  lia.
Qed.

(** C1: the gate leaves the store as it is (the append is skipped) exactly
    when the history table can be read, has a most recent record, and that
    record has the candidate's file name and the candidate's count; when the
    table does not exist, is empty, or its most recent record differs in
    either field, the candidate record is appended.  The record consulted is
    a row of the table with no later timestamp in the table. *)
Theorem history_gate_decision (st : Store) (f ts : pystr) (n : Z) :
  let candidate := mk_history (Some f) (Some ts) (Some n) in
  let skipped := history_gate f ts n st = st in
  let appended := history_gate f ts n st = write_append_history st candidate in
  (skipped <-> exists tbl r,
                 history_table st = Some tbl /\ latest_row tbl = Some r
                 /\ filename r = Some f /\ flagged_line_count r = Some n)
  /\ (~ skipped <-> appended)
  /\ (history_table st = None -> appended)
  /\ (history_table st = Some [] -> appended)
  /\ (forall tbl r,
        history_table st = Some tbl -> latest_row tbl = Some r ->
        filename r <> Some f \/ flagged_line_count r <> Some n -> appended)
  /\ (forall tbl r,
        latest_row tbl = Some r ->
        In r tbl
        /\ forall r', In r' tbl ->
             timestamp_ltb (processing_timestamp r) (processing_timestamp r')
             = false).
Proof.
  cbv zeta.
  pose proof (last_record_changed_false (history_table st) f n) as Hd.
  pose proof (write_append_history_changes st
                (mk_history (Some f) (Some ts) (Some n))) as Hne.
  unfold history_gate. cbv zeta.
  destruct (last_record_changed (history_table st) f n) eqn:E.
  - assert (Hno : ~ exists tbl r,
               history_table st = Some tbl /\ latest_row tbl = Some r
               /\ filename r = Some f /\ flagged_line_count r = Some n)
      by (intros C; apply Hd in C; discriminate).
    repeat split; try tauto; try (intros; reflexivity).
    apply latest_row_most_recent. assumption.
    apply latest_row_most_recent. assumption.
  - assert (Hyes : exists tbl r,
               history_table st = Some tbl /\ latest_row tbl = Some r
               /\ filename r = Some f /\ flagged_line_count r = Some n)
      by now apply Hd.
    destruct Hyes as [tbl [r [Ht [Hr [Hf Hn]]]]].
    split; [split; [intros _; now exists tbl, r | reflexivity]|].
    split; [split; [intros C; now elim C | intros C; now elim Hne]|].
    split; [intros C; congruence|].
    split; [intros C; rewrite C in Ht; injection Ht as <-; discriminate|].
    split.
    + intros tbl' r' Ht' Hr' [C | C]; rewrite Ht' in Ht; injection Ht as ->;
        rewrite Hr' in Hr; injection Hr as ->; contradiction.
    + apply latest_row_most_recent.
Qed.

(** Taking apart the nested cases of [ingest]. *)
Ltac ingest_cases :=
  unfold ingest; cbv zeta;
  repeat match goal with
         | |- match ?x with _ => _ end = _ -> _ => destruct x eqn:?
         end.

Lemma ingest_history (nfkd : pystr -> pystr) (str_of_list : list pystr -> pystr)
      (spark : SparkEngine)
      (path : pystr) (file : hdfs_read) (st st' : Store)
      (res : result (pystr * Z)) :
  ingest nfkd str_of_list spark path file st = (st', res) ->
  history_table st' = history_table st.
Proof. ingest_cases; now intros [= <- _]. Qed.

(** C8: when the gate decides to skip, the store is left as it is, the
    history table included; when it decides to append, the history table
    becomes the prior records followed by the one candidate record and the
    intermediate table is not touched.  A whole run leaves the history table
    as it was or adds that one record to it. *)
Theorem history_gate_frame (st : Store) (f ts : pystr) (n : Z) :
  (last_record_changed (history_table st) f n = false ->
   history_gate f ts n st = st)
  /\ (last_record_changed (history_table st) f n = true ->
      history_table (history_gate f ts n st)
      = Some (prior_records st ++ [mk_history (Some f) (Some ts) (Some n)])
      /\ intermediate_table (history_gate f ts n st) = intermediate_table st)
  /\ (forall nfkd str_of_list spark path file st' res,
        process_excel nfkd str_of_list spark path file ts st = (st', res) ->
        history_table st' = history_table st
        \/ exists f' n',
             history_table st'
             = Some (prior_records st
                     ++ [mk_history (Some f') (Some ts) (Some n')])).
Proof.
  assert (G : forall f0 n0 s,
             last_record_changed (history_table s) f0 n0 = true ->
             history_table (history_gate f0 ts n0 s)
             = Some (prior_records s
                     ++ [mk_history (Some f0) (Some ts) (Some n0)])
             /\ intermediate_table (history_gate f0 ts n0 s)
                = intermediate_table s).
  { intros f0 n0 s E. unfold history_gate. cbv zeta. rewrite E.
    unfold write_append_history, prior_records. simpl.
    now destruct (history_table s). }
  split; [|split].
  - intros E. unfold history_gate. cbv zeta. now rewrite E.
  - apply G.
  - intros nfkd str_of_list spark path file st' res. unfold process_excel.
    destruct (ingest nfkd str_of_list spark path file st)
      as [st1 [[f' n']|e]] eqn:Ei;
      apply ingest_history in Ei; intros [= <- _]; [|now left].
    destruct (last_record_changed (history_table st1) f' n') eqn:E.
    + right. exists f', n'. destruct (G f' n' st1 E) as [-> _].
      unfold prior_records. now rewrite Ei.
    + left. unfold history_gate. cbv zeta. now rewrite E.
Qed.

(** * Concrete runs *)

Lemma find_resilient_sheet_name_first_match_witness :
  find_resilient_sheet_name nfkd_fragment sample_str_of_list (File wb_flags)
    sample_path (lit "flag") = Ok (lit "Flag (old)").
Proof.
  apply (proj2 (proj2 (find_resilient_sheet_name_first_match
                         nfkd_fragment sample_str_of_list
                         nfkd_fragment_fixes_ascii))).
  reflexivity.
Defined.

Lemma empty_prefix_matches_everything_witness :
  normalize_text_for_matching nfkd_fragment blank_prefix = []
  /\ find_resilient_sheet_name nfkd_fragment sample_str_of_list
       (File wb_without_sheet) sample_path blank_prefix = Ok (lit "Summary").
Proof.
  split; [reflexivity|].
  apply (proj1 (proj2 (empty_prefix_matches_everything
                         nfkd_fragment sample_str_of_list blank_prefix
                         eq_refl)))
    with (later := [lit "Notes"]).
  reflexivity.
Defined.

Lemma resolution_failure_message_witness :
  exists e,
    process_excel nfkd_fragment sample_str_of_list sample_engine sample_path
      (File wb_without_column_a) sample_now empty_store
    = (empty_store, Raise e)
    /\ carries (exn_msg e) (lit "column_a")
    /\ carries (exn_msg e)
         (normalize_text_for_matching nfkd_fragment (lit "column_a"))
    /\ carries (exn_msg e) (sample_str_of_list [lit "Foo"; lit "Bar"]).
Proof.
  apply (proj2 (resolution_failure_message nfkd_fragment sample_str_of_list
                  sample_engine nfkd_fragment_fixes_ascii)
               wb_without_column_a (lit "column_a") [lit "Foo"; lit "Bar"]).
  apply (column_a_unmatched nfkd_fragment sample_engine wb_without_column_a
           (lit "Sheet_Prefix_To_Find - March")).
  - exists [], []. split; [reflexivity | split; [reflexivity|]]. intros y [].
  - discriminate.
  - intros c [<- | [<- | []]]; reflexivity.
Defined.

Lemma valid_rows_filtered_before_projection_witness :
  ingest nfkd_fragment sample_str_of_list sample_engine sample_path
         (File wb_march) empty_store
  = (march_store, Ok (lit "q1.xlsx", 1%Z))
  /\ rows_of_table march_store
     = [ [Some (lit "A1"); Some (lit "x"); Some (lit "1")];
         [Some (lit "A3"); Some (lit "z"); None] ]
  /\ (exists sheet a ca exprs table,
    first_such (prefix_match nfkd_fragment (lit "sheet_prefix_to_find"))
               (sheetnames wb_march) sheet
    /\ hd_error (get_resilient_column_names nfkd_fragment
                   (columns (read_sheet wb_march sheet)) [lit "column_a"]) = Some a
    /\ In a (columns (read_sheet wb_march sheet))
    /\ resolve_column sample_engine (columns (read_sheet wb_march sheet))
                      (quote_column_if_needed a) = Some ca
    /\ hd_error exprs = Some (ca, lit "column_a")
    /\ intermediate_table march_store = Some table
    /\ let cols := columns (read_sheet wb_march sheet) in
       let kept := filter (row_is_valid cols ca) (rows (read_sheet wb_march sheet)) in
       table = df_select (mk_df cols kept) exprs
       /\ rows table
          = map (fun r => map (fun e => cell_of cols r (fst e)) exprs) kept
       /\ (forall r, In r kept
                     <-> In r (rows (read_sheet wb_march sheet))
                         /\ exists v, cell_of cols r ca = Some v /\ trim v <> [])
       /\ (forall r v, cell_of cols r ca = Some v ->
                       forallb (fun c => c =? SPACE) v = true ->
                       ~ In r kept)
       /\ (forall r, cell_of cols r ca = None -> ~ In r kept)
       /\ (forall r v c, In r (rows (read_sheet wb_march sheet)) ->
                         cell_of cols r ca = Some v ->
                         In c v -> c <> SPACE ->
                         In r kept)).
Proof.
  split; [reflexivity | split; [reflexivity|]].
  apply (valid_rows_filtered_before_projection
           nfkd_fragment sample_str_of_list sample_engine sample_path
           wb_march empty_store march_store (lit "q1.xlsx") 1%Z).
  reflexivity.
Defined.

(** C5 as the specification states it fails: a cell that holds a TAB is
    whitespace only, and its row is written to the intermediate table. *)
Lemma tab_only_cell_keeps_its_row :
  forallb is_space [9] = true
  /\ nth 1 (rows (read_sheet wb_tab_cell (lit "Sheet_Prefix_To_Find"))) []
     = [Some [9]; Some (lit "y")]
  /\ rows_of_table
       (fst (ingest nfkd_fragment sample_str_of_list sample_engine
                    sample_path (File wb_tab_cell) empty_store))
     = [ [Some (lit "A1"); Some (lit "x")];
         [Some [9]; Some (lit "y")] ].
Proof. split; [reflexivity | split; reflexivity]. Defined.

Lemma flagged_line_count_counts_valid_rows_witness :
  (exists st',
      ingest nfkd_fragment sample_str_of_list sample_engine sample_path
             (File wb_without_flag) empty_store
      = (st', Ok (lit "q1.xlsx", 0%Z))
      /\ forall now,
           process_excel nfkd_fragment sample_str_of_list sample_engine
                         sample_path (File wb_without_flag) now empty_store
           = (history_gate (lit "q1.xlsx") now 0%Z st', Ok tt))
  /\ (exists st',
        ingest nfkd_fragment sample_str_of_list sample_engine sample_path
               (File wb_march) empty_store
        = (st', Ok (lit "q1.xlsx", 1%Z))
        /\ forall now,
             process_excel nfkd_fragment sample_str_of_list sample_engine
                           sample_path (File wb_march) now empty_store
             = (history_gate (lit "q1.xlsx") now 1%Z st', Ok tt)).
Proof.
  split.
  - apply (proj1 (flagged_line_count_counts_valid_rows
                    nfkd_fragment sample_str_of_list sample_engine
                    nfkd_fragment_fixes_ascii sample_path wb_without_flag
                    empty_store)
                 (lit "Sheet_Prefix_To_Find") (lit "Column_A")
                 (lit "Column_B")); [|reflexivity].
    split; [|split; [discriminate | split]].
    + exists [], []. split; [reflexivity | split; [reflexivity|]].
      intros y [].
    + exists (lit "Column_A"). split; reflexivity.
    + exists (lit "Column_B"). split; reflexivity.
  - apply (proj1 (proj2 (flagged_line_count_counts_valid_rows
                           nfkd_fragment sample_str_of_list sample_engine
                           nfkd_fragment_fixes_ascii sample_path wb_march
                           empty_store))
                 (lit "Sheet_Prefix_To_Find - March") (lit "Column_A Name")
                 (lit "Column_B (code)") (lit "Flag Marker1")
                 (lit "Flag Marker1")); [|reflexivity|reflexivity].
    split; [|split; [discriminate | split]].
    + exists [lit "Cover"], [].
      split; [reflexivity | split; [reflexivity|]].
      intros y [<- | []]. reflexivity.
    + exists (lit "Column_A Name"). split; reflexivity.
    + exists (lit "Column_B (code)"). split; reflexivity.
Defined.

(** C2 as the specification states it fails: with one prefix and two headers
    that match it, the code collects both headers, where collecting the first
    match only gives one. *)
Lemma get_resilient_column_names_collects_every_match :
  get_resilient_column_names nfkd_fragment two_column_a_headers
    [lit "column_a"]
  = [lit "Column_A"; lit "column_a (old)"]
  /\ resolve_many_as_specified nfkd_fragment two_column_a_headers
       [lit "column_a"]
     = [lit "Column_A"]
  /\ get_resilient_column_names nfkd_fragment two_column_a_headers
       [lit "column_a"]
     <> resolve_many_as_specified nfkd_fragment two_column_a_headers
          [lit "column_a"].
Proof.
  split; [reflexivity | split; [reflexivity | discriminate]].
Defined.

(** The three scenarios of the gate on a history whose most recent record is
    [("q1.xlsx", 5)]: the same candidate is skipped, a different count is
    appended, and so is any candidate when there is no history table. *)
Lemma history_gate_decision_witness :
  history_gate (lit "q1.xlsx") sample_now 5%Z store_with_history
  = store_with_history
  /\ history_gate (lit "q1.xlsx") sample_now 6%Z store_with_history
     = write_append_history store_with_history
         (mk_history (Some (lit "q1.xlsx")) (Some sample_now) (Some 6%Z))
  /\ history_gate (lit "q1.xlsx") sample_now 5%Z empty_store
     = write_append_history empty_store
         (mk_history (Some (lit "q1.xlsx")) (Some sample_now) (Some 5%Z)).
Proof.
  split; [|split].
  - apply (proj1 (history_gate_decision store_with_history (lit "q1.xlsx")
                    sample_now 5%Z)).
    exists [q1_count5; q0_count9], q1_count5. repeat split.
  - apply (proj1 (proj2 (proj2 (proj2 (proj2
             (history_gate_decision store_with_history (lit "q1.xlsx")
                sample_now 6%Z))))) [q1_count5; q0_count9] q1_count5);
      [reflexivity | reflexivity | right; discriminate].
  - apply (proj1 (proj2 (proj2
             (history_gate_decision empty_store (lit "q1.xlsx")
                sample_now 5%Z)))).
    reflexivity.
Defined.

Lemma history_gate_frame_witness :
  history_gate (lit "q1.xlsx") sample_now 5%Z store_with_history
  = store_with_history
  /\ history_table
       (history_gate (lit "q1.xlsx") sample_now 6%Z store_with_history)
     = Some [q1_count5; q0_count9;
             mk_history (Some (lit "q1.xlsx")) (Some sample_now) (Some 6%Z)].
Proof.
  split.
  - apply (proj1 (history_gate_frame store_with_history (lit "q1.xlsx")
                    sample_now 5%Z)).
    reflexivity.
  - apply (proj1 (proj2 (history_gate_frame store_with_history
                           (lit "q1.xlsx") sample_now 6%Z))).
    reflexivity.
Defined.

(** * Further properties of the code *)

(** ** TextNormalizer, continued *)

Lemma key_char_shape (c : N) :
  key_char c = true -> c < 128 /\ ~ (65 <= c <= 90) /\ is_space c = false.
Proof.
  unfold key_char, is_ascii, lower_cp. rewrite !andb_true_iff, negb_true_iff.
  intros [[Ha Hl] Hs]. split; [now apply N.ltb_lt | split; [|assumption]].
  intros [H1 H2]. apply N.leb_le in H1. apply N.leb_le in H2.
  rewrite H1, H2 in Hl. simpl in Hl. apply N.eqb_eq in Hl. lia.
Qed.

Lemma filter_filter_weaker {A} (f g : A -> bool) (l : list A) :
  (forall a, f a = true -> g a = true) ->
  filter f (filter g l) = filter f l.
Proof.
  intros H. induction l as [|a l IH]; simpl; [reflexivity|].
  destruct (g a) eqn:G; simpl.
  - destruct (f a); [f_equal|]; apply IH.
  - destruct (f a) eqn:F; [|apply IH]. apply H in F. congruence.
Qed.

Lemma strip_all_whitespace_remove_spaces (s : pystr) :
  strip_all_whitespace (remove_spaces s) = strip_all_whitespace s.
Proof.
  apply filter_filter_weaker. intros c. unfold SPACE.
  destruct (N.eqb_spec c 32) as [-> | _]; [discriminate | reflexivity].
Qed.

Section NormalizerShape.

Variable nfkd : pystr -> pystr.
Local Abbreviation normalize := (normalize_text_for_matching nfkd).
Local Abbreviation loose := (normalize_for_substring_search nfkd).

(** X1: whatever the text, its key holds ASCII code points only, none of
    them an upper-case letter and none of them whitespace. *)
Theorem normalized_key_shape (x : pystr) :
  Forall (fun c => c < 128 /\ ~ (65 <= c <= 90) /\ is_space c = false)
         (normalize x).
Proof.
  apply Forall_forall. intros c Hc. apply key_char_shape.
  pose proof (normalize_key_chars nfkd x) as H.
  rewrite forallb_forall in H. now apply H.
Qed.

(** X2: on a text that is not empty, the key is the looser form of the flag
    heuristic with the remaining whitespace removed; so two headers with the
    same looser form have the same key. *)
Theorem normalize_refines_substring_form (x y : pystr) :
  x <> [] -> y <> [] ->
  normalize x = strip_all_whitespace (loose x)
  /\ (loose x = loose y -> normalize x = normalize y).
Proof.
  assert (E : forall t, t <> [] -> normalize t = strip_all_whitespace (loose t)).
  { intros [|c t] Ht; [contradiction|].
    unfold normalize_text_for_matching, normalize_for_substring_search.
    cbn [truthy negb]. cbv zeta.
    now rewrite strip_all_whitespace_remove_spaces. }
  intros Hx Hy. split; [now apply E|].
  intros H. now rewrite (E x Hx), (E y Hy), H.
Qed.

Hypothesis nfkd_ascii : nfkd_fixes_ascii nfkd.

Lemma normalize_ascii_strip_lower (s : pystr) :
  forallb is_ascii s = true ->
  normalize s = strip_all_whitespace (py_lower s).
Proof using nfkd_ascii.
  intros H. destruct s as [|c s]; [reflexivity|].
  unfold normalize_text_for_matching. cbn [truthy negb]. cbv zeta.
  rewrite (nfkd_ascii _ H). unfold ascii_ignore. now rewrite filter_all.
Qed.

Lemma forallb_ascii_app (s t : pystr) :
  forallb is_ascii s = true -> forallb is_ascii t = true ->
  forallb is_ascii (s ++ t) = true.
Proof. intros Hs Ht. rewrite forallb_app. now rewrite Hs, Ht. Qed.

(** X3: on ASCII text the key of a concatenation is the concatenation of the
    keys, so a header that reads as the target, up to case and whitespace,
    followed by any annotation passes the prefix test. *)
Theorem annotated_header_matches (p h suffix : pystr) :
  forallb is_ascii p = true -> forallb is_ascii h = true ->
  forallb is_ascii suffix = true ->
  strip_all_whitespace (py_lower h) = strip_all_whitespace (py_lower p) ->
  normalize (h ++ suffix) = normalize p ++ normalize suffix
  /\ prefix_match nfkd p (h ++ suffix) = true.
Proof using nfkd_ascii.
  intros Hp Hh Hs E.
  assert (K : normalize (h ++ suffix) = normalize p ++ normalize suffix).
  { rewrite !normalize_ascii_strip_lower
      by (assumption || now apply forallb_ascii_app).
    unfold strip_all_whitespace, py_lower in *.
    now rewrite map_app, filter_app, E. }
  split; [exact K|].
  unfold prefix_match. rewrite K. apply startswith_spec.
  now exists (normalize suffix).
Qed.

(** X4: the resolvers see the target through its key only: two targets with
    the same key select the same sheet and the same columns. *)
Theorem resolvers_depend_on_key (str_of_list : list pystr -> pystr)
        (p q : pystr) :
  normalize p = normalize q ->
  (forall wb path c,
      find_resilient_sheet_name nfkd str_of_list (File wb) path p = Ok c
      <-> find_resilient_sheet_name nfkd str_of_list (File wb) path q = Ok c)
  /\ (forall cols,
        get_resilient_column_names nfkd cols [p]
        = get_resilient_column_names nfkd cols [q]).
Proof.
  intros E. split.
  - intros wb path c. unfold find_resilient_sheet_name. cbv zeta. rewrite E.
    destruct (sheet_loop nfkd (normalize q) (sheetnames wb));
      split; intros H; try discriminate; exact H.
  - intros cols. unfold get_resilient_column_names. simpl. now rewrite E.
Qed.

End NormalizerShape.

Lemma normalize_refines_substring_form_witness :
  normalize_text_for_matching nfkd_fragment sample_text
  = strip_all_whitespace
      (normalize_for_substring_search nfkd_fragment sample_text)
  /\ normalize_for_substring_search nfkd_fragment sample_text
     = [101; 99; 111; 108; 101; 9; 97].
Proof.
  split; [|reflexivity].
  apply (proj1 (normalize_refines_substring_form nfkd_fragment
                  sample_text sample_text
                  ltac:(discriminate) ltac:(discriminate))).
Defined.

Lemma annotated_header_matches_witness :
  prefix_match nfkd_fragment (lit "column_a") (lit "Column_A" ++ lit " (old)")
  = true.
Proof.
  apply (proj2 (annotated_header_matches nfkd_fragment
                  nfkd_fragment_fixes_ascii
                  (lit "column_a") (lit "Column_A") (lit " (old)")
                  eq_refl eq_refl eq_refl eq_refl)).
Defined.

Lemma resolvers_depend_on_key_witness :
  normalize_text_for_matching nfkd_fragment spaced_target
  = normalize_text_for_matching nfkd_fragment (lit "column_a")
  /\ get_resilient_column_names nfkd_fragment two_column_a_headers
       [spaced_target]
     = get_resilient_column_names nfkd_fragment two_column_a_headers
         [lit "column_a"].
Proof.
  split; [reflexivity|].
  apply (proj2 (resolvers_depend_on_key nfkd_fragment sample_str_of_list
                  spaced_target (lit "column_a") eq_refl)).
Defined.

(** ** NameResolver, continued *)

Lemma hd_error_filter {A} (f : A -> bool) (l : list A) :
  hd_error (filter f l) = find f l.
Proof.
  induction l as [|a l IH]; simpl; [reflexivity|]. now destruct (f a).
Qed.

Lemma hd_error_keep_first_nil (l : list pystr) :
  hd_error (keep_first [] l) = hd_error l.
Proof. now destruct l. Qed.

Lemma keep_first_length (seen l : list pystr) :
  (List.length (keep_first seen l) <= List.length l)%nat.
Proof.
  revert seen. induction l as [|x l IH]; intros seen; simpl; [lia|].
  destruct (py_in_list x seen); [specialize (IH seen) | specialize (IH (x :: seen))];
    simpl; lia.
Qed.

Section ResolverComposition.

Variable nfkd : pystr -> pystr.
Variable str_of_list : list pystr -> pystr.

(** X5: with one target, the first name that [get_resilient_column_names]
    returns (the one [process_excel] takes with [[0]]) is the first header in
    source order that passes the prefix test, which is also the name the
    sheet resolver returns on the same candidates. *)
Theorem first_column_candidate_is_first_match (cols : list pystr) (p : pystr) :
  hd_error (get_resilient_column_names nfkd cols [p])
  = find (prefix_match nfkd p) cols
  /\ forall wb path c,
       sheetnames wb = cols ->
       (find_resilient_sheet_name nfkd str_of_list (File wb) path p = Ok c
        <-> hd_error (get_resilient_column_names nfkd cols [p]) = Some c).
Proof.
  assert (E : hd_error (get_resilient_column_names nfkd cols [p])
              = find (prefix_match nfkd p) cols).
  { rewrite get_resilient_column_names_keep_first, hd_error_keep_first_nil.
    unfold all_matches. simpl. rewrite app_nil_r. apply hd_error_filter. }
  split; [exact E|].
  intros wb path c <-. rewrite E, find_resilient_sheet_name_eq.
  destruct (find _ _); split; congruence.
Qed.

(** X6: targets added at the end only add names at the end: the result for
    [ps] is the beginning of the result for [ps ++ qs].  The result never
    holds more names than there are headers. *)
Theorem get_resilient_column_names_app (cols ps qs : list pystr) :
  get_resilient_column_names nfkd cols (ps ++ qs)
  = get_resilient_column_names nfkd cols ps
    ++ keep_first (get_resilient_column_names nfkd cols ps)
                  (all_matches nfkd cols qs)
  /\ (List.length (get_resilient_column_names nfkd cols ps)
      <= List.length cols)%nat.
Proof.
  split.
  - rewrite !get_resilient_column_names_keep_first.
    unfold all_matches. rewrite flat_map_app. apply keep_first_app.
  - apply NoDup_incl_length.
    + rewrite get_resilient_column_names_keep_first. apply keep_first_NoDup.
    + intros c Hc. apply get_resilient_column_names_In in Hc. apply Hc.
Qed.

Hypothesis nfkd_ascii : nfkd_fixes_ascii nfkd.

(** X8: the flag column that the heuristic returns is one of the headers, is
    not the empty name (so the test [if actual_flag_col] of [process_excel]
    holds for it), and is among the names the column resolver returns for
    the target "flag". *)
Theorem flag_column_is_resolvable (cols : list pystr) (h : pystr) :
  find_flag_columns_for_aggregation nfkd cols = Some h ->
  In h cols /\ truthy h = true
  /\ In h (get_resilient_column_names nfkd cols [lit "flag"]).
Proof using nfkd_ascii.
  rewrite (find_flag_columns_for_aggregation_find nfkd nfkd_ascii).
  intros H. apply find_some in H. destruct H as [Hin Q].
  split; [assumption|]. split; [now apply (flag_qualifies_truthy nfkd)|].
  apply get_resilient_column_names_In. split; [assumption|].
  exists (lit "flag"). split; [now left|].
  unfold flag_qualifies in Q. apply andb_true_iff in Q. destruct Q as [Q _].
  unfold prefix_match. now rewrite (normalize_key nfkd nfkd_ascii (lit "flag")).
Qed.

End ResolverComposition.

Lemma flag_column_is_resolvable_witness :
  In (lit "Flag Marker1")
     (get_resilient_column_names nfkd_fragment
        [lit "Column_A Name"; lit "Column_B (code)"; lit "Flag Marker1"]
        [lit "flag"]).
Proof.
  apply (flag_column_is_resolvable nfkd_fragment nfkd_fragment_fixes_ascii
           [lit "Column_A Name"; lit "Column_B (code)"; lit "Flag Marker1"]
           (lit "Flag Marker1") eq_refl).
Defined.

(** ** Column quoting *)

Lemma startswith_cons_self (c : N) (s : pystr) : startswith (c :: s) [c] = true.
Proof. cbn [startswith]. now rewrite N.eqb_refl, startswith_nil. Qed.

(** X7: quoting is idempotent: a name is returned as it is or between two
    back-quotes, and what is returned is never quoted a second time; a name
    without whitespace, parenthesis or hyphen is returned as it is. *)
Theorem quote_column_if_needed_idempotent (col_name : pystr) :
  quote_column_if_needed (quote_column_if_needed col_name)
  = quote_column_if_needed col_name
  /\ (quote_column_if_needed col_name = col_name
      \/ quote_column_if_needed col_name
         = [BACKTICK] ++ col_name ++ [BACKTICK])
  /\ (has_special_char col_name = false ->
      quote_column_if_needed col_name = col_name).
Proof.
  destruct (has_special_char col_name
            && negb (startswith col_name [BACKTICK]
                     && endswith col_name [BACKTICK])) eqn:E.
  - assert (Q : quote_column_if_needed col_name
                = BACKTICK :: (col_name ++ [BACKTICK]))
      by (unfold quote_column_if_needed; now rewrite E).
    rewrite Q.
    split; [|split; [now right | intros H; now rewrite H in E]].
    unfold quote_column_if_needed, endswith.
    replace (rev (BACKTICK :: (col_name ++ [BACKTICK])))
      with (BACKTICK :: rev col_name ++ [BACKTICK])
      by (simpl; now rewrite rev_app_distr).
    cbn [rev app]. rewrite !startswith_cons_self. cbn [andb negb].
    now rewrite andb_false_r.
  - assert (Q : quote_column_if_needed col_name = col_name)
      by (unfold quote_column_if_needed; now rewrite E).
    rewrite !Q. split; [reflexivity | split; [now left | reflexivity]].
Qed.

(** ** IngestionPipeline, continued *)

Lemma after_last_slash_no_slash (p acc : pystr) :
  ~ In SLASH p -> after_last_slash p acc = acc.
Proof.
  revert acc. induction p as [|c p IH]; intros acc H; simpl; [reflexivity|].
  destruct (N.eqb_spec c SLASH) as [-> | _].
  - elim H. now left.
  - apply IH. intros C. apply H. now right.
Qed.

Lemma after_last_slash_app (d n acc : pystr) :
  after_last_slash (d ++ SLASH :: n) acc = after_last_slash n n.
Proof.
  revert acc. induction d as [|c d IH]; intros acc; simpl.
  - reflexivity.
  - destruct (c =? SLASH); apply IH.
Qed.

Lemma after_last_slash_clean (p acc : pystr) :
  In SLASH p \/ ~ In SLASH acc -> ~ In SLASH (after_last_slash p acc).
Proof.
  revert acc. induction p as [|c p IH]; intros acc H; simpl.
  - destruct H as [[] | H]; assumption.
  - destruct (N.eqb_spec c SLASH) as [-> | Hc].
    + apply IH. destruct (in_dec N.eq_dec SLASH p); [now left | now right].
    + apply IH. destruct H as [[H | H] | H]; [congruence | now left | now right].
Qed.

Lemma after_last_slash_suffix (p acc : pystr) :
  (exists d, acc = d ++ p) -> exists d, acc = d ++ after_last_slash p acc.
Proof.
  revert acc. induction p as [|c p IH]; intros acc [d Hd]; simpl.
  - exists []. reflexivity.
  - destruct (c =? SLASH).
    + destruct (IH p (ex_intro _ [] eq_refl)) as [d' Hd'].
      exists (d ++ c :: d'). rewrite Hd at 1. rewrite <- app_assoc. simpl.
      now rewrite <- Hd'.
    + apply IH. exists (d ++ [c]). now rewrite <- app_assoc.
Qed.

(** [basename p] is what follows the last slash of [p]. *)
Lemma basename_after_last_slash (p : pystr) :
  (exists dir, p = dir ++ basename p)
  /\ ~ In SLASH (basename p)
  /\ (~ In SLASH p -> basename p = p)
  /\ (forall dir name,
        p = dir ++ SLASH :: name -> ~ In SLASH name -> basename p = name).
Proof.
  unfold basename. split; [|split; [|split]].
  - apply after_last_slash_suffix. now exists [].
  - apply after_last_slash_clean.
    destruct (in_dec N.eq_dec SLASH p); [now left | now right].
  - apply after_last_slash_no_slash.
  - intros dir name -> H. rewrite after_last_slash_app.
    now apply after_last_slash_no_slash.
Qed.

Lemma history_gate_intermediate (f ts : pystr) (n : Z) (st : Store) :
  intermediate_table (history_gate f ts n st) = intermediate_table st.
Proof.
  unfold history_gate. cbv zeta. now destruct (last_record_changed _ _ _).
Qed.

Lemma df_select_rows_length (df : DataFrame) (exprs : list (pystr * pystr)) :
  List.length (rows (df_select df exprs)) = List.length (rows df)
  /\ Forall (fun r => List.length r = List.length (columns (df_select df exprs)))
            (rows (df_select df exprs)).
Proof.
  unfold df_select. cbn [rows columns]. split; [apply length_map|].
  apply Forall_forall. intros r Hr. apply in_map_iff in Hr.
  destruct Hr as [r0 [<- _]]. now rewrite !length_map.
Qed.

Lemma filter_length_le {A} (f : A -> bool) (l : list A) :
  (List.length (filter f l) <= List.length l)%nat.
Proof.
  induction l as [|a l IH]; simpl; [lia|]. destruct (f a); simpl; lia.
Qed.

Section PipelineRuns.

Variable nfkd : pystr -> pystr.
Variable str_of_list : list pystr -> pystr.
Variable spark : SparkEngine.

Lemma find_resilient_sheet_name_Raise (file : hdfs_read)
      (path p : pystr) (e : exn) :
  find_resilient_sheet_name nfkd str_of_list file path p = Raise e ->
  exn_class e = Exception.
Proof.
  unfold find_resilient_sheet_name. cbv zeta.
  destruct file as [text| |wb]; [| |destruct (sheet_loop _ _ _)];
    intros [= <-]; reflexivity.
Qed.

Lemma find_resilient_sheet_name_Ok_file (file : hdfs_read)
      (path p sheet : pystr) :
  find_resilient_sheet_name nfkd str_of_list file path p = Ok sheet ->
  exists wb, file = File wb.
Proof.
  unfold find_resilient_sheet_name. cbv zeta.
  destruct file as [text| |wb]; [discriminate | discriminate |].
  intros _. now exists wb.
Qed.

Lemma resolve_select_Raise (cols : list pystr) (exprs : list (pystr * pystr))
      (e : exn) :
  resolve_select spark cols exprs = Raise e ->
  exn_class e = AnalysisException
  /\ exists h, In h (map fst exprs)
               /\ resolve_column spark cols (quote_column_if_needed h) = None.
Proof.
  induction exprs as [|[source alias] later IH]; [discriminate|].
  cbn [resolve_select map fst].
  destruct (F_col spark cols source) as [c|e0] eqn:Ec.
  - destruct (resolve_select spark cols later) as [resolved|e1];
      [discriminate|].
    intros [= <-]. destruct (IH eq_refl) as [Hc [h [Hin Hh]]].
    split; [exact Hc|]. exists h. split; [now right | exact Hh].
  - intros [= <-]. apply F_col_Raise in Ec. destruct Ec as [Hc Hh].
    split; [exact Hc|]. exists source. split; [now left | exact Hh].
Qed.

Lemma resolve_select_Ok_In (cols : list pystr) (exprs resolved : list (pystr * pystr))
      (h : pystr) :
  resolve_select spark cols exprs = Ok resolved ->
  In h (map fst exprs) ->
  resolve_column spark cols (quote_column_if_needed h) <> None.
Proof.
  revert resolved. induction exprs as [|[source alias] later IH];
    intros resolved; [intros _ []|].
  cbn [resolve_select map fst].
  destruct (F_col spark cols source) as [c|e0] eqn:Ec; [|discriminate].
  destruct (resolve_select spark cols later) as [resolved'|e1];
    [|discriminate].
  intros _ [<- | Hin].
  - apply F_col_Ok in Ec. congruence.
  - now apply (IH resolved').
Qed.

(** What a run that raises has done: nothing is written, and an
    [AnalysisException] comes from a header whose reference the engine does
    not resolve. *)
Lemma ingest_Raise (path : pystr) (file : hdfs_read) (st st' : Store)
      (e : exn) :
  ingest nfkd str_of_list spark path file st = (st', Raise e) ->
  st' = st
  /\ (exn_class e = Exception \/ exn_class e = ValueError
      \/ exn_class e = AnalysisException)
  /\ (exn_class e = AnalysisException ->
      exists wb sheet h,
        file = File wb
        /\ In h (columns (read_sheet wb sheet))
        /\ resolve_column spark (columns (read_sheet wb sheet))
                          (quote_column_if_needed h) = None).
Proof.
  unfold ingest. cbv zeta.
  destruct (find_resilient_sheet_name _ _ _ _ _) as [sheet|e0] eqn:Es.
  2:{ intros [= <- <-]. apply find_resilient_sheet_name_Raise in Es.
      split; [reflexivity|]. split; [now left|]. rewrite Es. discriminate. }
  destruct (find_resilient_sheet_name_Ok_file _ _ _ _ Es) as [wb ->].
  unfold createDataFrame.
  destruct (rows (read_sheet wb sheet)) as [|r0 others];
    [intros [= <- <-]; split; [reflexivity|]; split;
     [right; now left | discriminate]|].
  destruct (get_resilient_column_names nfkd _ [lit "column_a"])
    as [|a others_a] eqn:Ea;
    [intros [= <- <-]; split; [reflexivity|]; split;
     [right; now left | discriminate]|].
  assert (Hina : In a (columns (read_sheet wb sheet))).
  { assert (Hin : In a (get_resilient_column_names nfkd
                          (columns (read_sheet wb sheet)) [lit "column_a"]))
      by (rewrite Ea; now left).
    apply get_resilient_column_names_In in Hin. exact (proj1 Hin). }
  destruct (F_col spark (columns (read_sheet wb sheet)) a) as [ca|e1] eqn:Ha.
  2:{ intros [= <- <-]. apply F_col_Raise in Ha. destruct Ha as [Hc Hn].
      split; [reflexivity|]. split; [right; now right|].
      intros _. now exists wb, sheet, a. }
  destruct (get_resilient_column_names nfkd _ [lit "column_b"])
    as [|b others_b] eqn:Eb;
    [intros [= <- <-]; split; [reflexivity|]; split;
     [right; now left | discriminate]|].
  assert (Hinb : In b (columns (read_sheet wb sheet))).
  { assert (Hin : In b (get_resilient_column_names nfkd
                          (columns (read_sheet wb sheet)) [lit "column_b"]))
      by (rewrite Eb; now left).
    apply get_resilient_column_names_In in Hin. exact (proj1 Hin). }
  cbn [columns df_filter].
  assert (Hinf : forall c,
             find_flag_columns_for_aggregation nfkd
               (columns (read_sheet wb sheet)) = Some c ->
             In c (columns (read_sheet wb sheet))).
  { intros c Hc. unfold find_flag_columns_for_aggregation in Hc.
    cbv zeta in Hc. revert Hc.
    generalize (normalize_for_substring_search nfkd (lit "marker1")),
               (normalize_for_substring_search nfkd (lit "marker2")),
               (normalize_text_for_matching nfkd (lit "flag")).
    intros m1 m2 fp.
    assert (G : forall cols acc,
               flag_loop nfkd m1 m2 fp cols acc = Some c ->
               acc = Some c \/ In c cols).
    { induction cols as [|x cols IH]; intros acc; cbn [flag_loop];
        [now left|]. cbv zeta. intros H. apply IH in H.
      destruct H as [H | H]; [|right; now right].
      destruct (startswith _ _); [|now left].
      destruct (_ && _); [injection H as ->; right; now left | now left]. }
    intros H. apply G in H. destruct H as [H | H]; [discriminate | exact H]. }
  destruct (resolve_select spark _ _) as [resolved|e1] eqn:Er.
  2:{ intros [= <- <-]. apply resolve_select_Raise in Er.
      destruct Er as [Hc [h [Hin Hn]]].
      split; [reflexivity|]. split; [right; now right|].
      intros _. exists wb, sheet, h. split; [reflexivity|].
      split; [|exact Hn].
      rewrite map_app in Hin. cbn [map fst] in Hin.
      apply in_app_iff in Hin. destruct Hin as [[<- | [<- | []]] | Hin];
        try assumption.
      destruct (find_flag_columns_for_aggregation nfkd _) as [c|] eqn:Ef;
        [|destruct Hin].
      destruct (truthy c); [|destruct Hin].
      destruct Hin as [<- | []]. now apply Hinf. }
  destruct (compute_flagged_line_count spark _ _ _) as [n|e1] eqn:Ec;
    [discriminate|].
  exfalso. unfold compute_flagged_line_count in Ec.
  destruct (find_flag_columns_for_aggregation nfkd _) as [c|];
    [|discriminate Ec].
  cbn [truthy_opt] in Ec.
  destruct (truthy c); [|rewrite andb_false_r in Ec; discriminate Ec].
  destruct (_ && _); [|discriminate Ec].
  cbn [columns df_filter] in Ec.
  destruct (F_col spark (columns (read_sheet wb sheet)) c) as [c'|e2] eqn:Hc;
    [discriminate Ec|].
  apply F_col_Raise in Hc. destruct Hc as [_ Hn].
  apply (resolve_select_Ok_In _ _ _ c Er); [|exact Hn].
  rewrite map_app. apply in_app_iff. right. now left.
Qed.

Lemma process_excel_Raise (path : pystr) (file : hdfs_read)
      (now : pystr) (st st' : Store) (e : exn) :
  process_excel nfkd str_of_list spark path file now st = (st', Raise e) ->
  ingest nfkd str_of_list spark path file st = (st', Raise e).
Proof.
  unfold process_excel.
  destruct (ingest nfkd str_of_list spark path file st) as [s [[f n]|e0]];
    [discriminate | now intros [= <- <-]].
Qed.

Lemma process_excel_Ok (path : pystr) (file : hdfs_read)
      (now : pystr) (st st' : Store) (u : unit) :
  process_excel nfkd str_of_list spark path file now st = (st', Ok u) ->
  exists st1 f n,
    ingest nfkd str_of_list spark path file st = (st1, Ok (f, n))
    /\ st' = history_gate f now n st1.
Proof.
  unfold process_excel.
  destruct (ingest nfkd str_of_list spark path file st) as [s [[f n]|e0]];
    [|discriminate].
  intros [= <- _]. now exists s, f, n.
Qed.

Lemma ingest_Ok_file (path : pystr) (file : hdfs_read) (st st1 : Store)
      (x : pystr * Z) :
  ingest nfkd str_of_list spark path file st = (st1, Ok x) ->
  exists wb, file = File wb.
Proof.
  unfold ingest. cbv zeta.
  destruct (find_resilient_sheet_name _ _ _ _ _) as [sheet|e0] eqn:Es;
    [|discriminate].
  intros _. exact (find_resilient_sheet_name_Ok_file _ _ _ _ Es).
Qed.

(** The tables play no part in what the ingestion computes. *)
Lemma ingest_store_irrelevant (path : pystr) (file : hdfs_read)
      (st st1 st2 : Store) (x : pystr * Z) :
  ingest nfkd str_of_list spark path file st = (st1, Ok x) ->
  ingest nfkd str_of_list spark path file st2
  = (mk_store (intermediate_table st1) (history_table st2), Ok x).
Proof.
  intros H. destruct (ingest_Ok_file _ _ _ _ _ H) as [wb ->].
  destruct x as [f n]. apply ingest_Ok in H.
  destruct H as [sheet [ca [cb [cf [R [-> [-> ->]]]]]]].
  now rewrite (ingest_resolved nfkd str_of_list spark path wb st2 _ _ _ _ R).
Qed.

(** X9: a run that raises has written nothing: the read of the file, the
    sheet, the frame, both required columns and every column reference are
    dealt with before the first write.  The exception that leaves
    [process_excel] is a [ValueError] (a column, an empty sheet), an
    [Exception] (the sheet or the file) or, only when the engine does not
    resolve the reference to some header, an [AnalysisException]; never the
    [FileNotFoundError] of line 139. *)
Theorem failed_run_writes_nothing (path : pystr) (file : hdfs_read)
        (now : pystr) (st st' : Store) (e : exn) :
  process_excel nfkd str_of_list spark path file now st = (st', Raise e) ->
  st' = st
  /\ (exn_class e = Exception \/ exn_class e = ValueError
      \/ exn_class e = AnalysisException)
  /\ (exn_class e = AnalysisException ->
      exists wb sheet h,
        file = File wb
        /\ In h (columns (read_sheet wb sheet))
        /\ resolve_column spark (columns (read_sheet wb sheet))
                          (quote_column_if_needed h) = None).
Proof. intros H. now apply process_excel_Raise, ingest_Raise in H. Qed.

(** X15: whatever goes wrong in [find_resilient_sheet_name], the caller gets
    an [Exception] whose message names the path.  When the read returns no
    file the message quotes the "not found" text of line 54; when the read
    itself raises, as it does for a path that does not exist, the message
    quotes the text of that error instead. *)
Theorem sheet_errors_are_wrapped (file : hdfs_read) (path p : pystr)
        (e : exn) :
  find_resilient_sheet_name nfkd str_of_list file path p = Raise e ->
  exn_class e = Exception
  /\ carries (exn_msg e)
       (lit "Could not enumerate sheets from Excel file '" ++ path)
  /\ (file = NoFile ->
      exn_msg e
      = lit "Could not enumerate sheets from Excel file '" ++ path
        ++ lit "'. Original error: "
        ++ lit "Excel file not found or empty at HDFS path: " ++ path)
  /\ (forall text,
        file = ReadError text ->
        exn_msg e
        = lit "Could not enumerate sheets from Excel file '" ++ path
          ++ lit "'. Original error: " ++ text).
Proof.
  intros H. split; [now apply find_resilient_sheet_name_Raise in H|].
  revert H. unfold find_resilient_sheet_name. cbv zeta.
  destruct file as [text| |wb].
  - intros [= <-]. cbn [exn_msg]. split; [|split; [discriminate|]].
    + exists [], (lit "'. Original error: " ++ text).
      now rewrite <- app_assoc.
    + now intros text' [= <-].
  - intros [= <-]. cbn [exn_msg]. split; [|split; [reflexivity|discriminate]].
    exists [], (lit "'. Original error: "
                ++ lit "Excel file not found or empty at HDFS path: "
                ++ path).
    now rewrite <- app_assoc.
  - destruct (sheet_loop _ _ _); [discriminate|]. intros [= <-]. cbn [exn_msg].
    split; [|split; discriminate].
    exists [], (lit "'. Original error: "
                ++ sheet_not_found_msg str_of_list p
                     (normalize_text_for_matching nfkd p) path (sheetnames wb)).
    now rewrite <- app_assoc.
Qed.

(** X13: the file name that a run hands to the history gate is what follows
    the last slash of the path: it is an ending of the path and holds no
    slash, so the same file under two directories gives the same name. *)
Theorem history_file_name_is_last_component (path : pystr) (wb : Workbook)
        (st st' : Store) (f : pystr) (n : Z) :
  ingest nfkd str_of_list spark path (File wb) st = (st', Ok (f, n)) ->
  (exists dir, path = dir ++ f)
  /\ ~ In SLASH f
  /\ (forall dir name,
        path = dir ++ SLASH :: name -> ~ In SLASH name -> f = name).
Proof.
  intros H. apply ingest_Ok in H.
  destruct H as [sheet [ca [cb [cf [_ [_ [-> _]]]]]]].
  destruct (basename_after_last_slash path) as [H1 [H2 [_ H4]]].
  split; [exact H1 | split; [exact H2 | exact H4]].
Qed.

(** X11: the flagged-line count of a run is between zero and the number of
    rows written to the intermediate table. *)
Theorem flagged_line_count_bounds (path : pystr) (wb : Workbook)
        (st st' : Store) (f : pystr) (n : Z) :
  ingest nfkd str_of_list spark path (File wb) st = (st', Ok (f, n)) ->
  (0 <= n <= Z.of_nat (List.length (rows_of_table st')))%Z.
Proof.
  intros H. apply ingest_Ok in H.
  destruct H as [sheet [ca [cb [cf [_ [-> [_ ->]]]]]]].
  unfold rows_of_table, write_overwrite_intermediate, resolved_table.
  cbn [intermediate_table].
  rewrite (proj1 (df_select_rows_length _ _)). cbn [rows].
  unfold resolved_count, non_null_count.
  destruct cf as [c|]; [|lia].
  pose proof (filter_length_le is_not_null
                (map (fun r => cell_of (columns (read_sheet wb sheet)) r c)
                     (kept_rows (read_sheet wb sheet) ca))) as L.
  rewrite length_map in L. lia.
Qed.

Hypothesis nfkd_ascii : nfkd_fixes_ascii nfkd.

(** X10: after a run that succeeds, the intermediate table has the columns
    [column_a], [column_b] and, exactly when a flag column was found, [flag];
    each of its rows has one cell per column; it has no more rows than the
    sheet; and it is the same whatever the tables held before the run. *)
Theorem intermediate_table_schema (path : pystr) (wb : Workbook)
        (now : pystr) (st st' : Store) :
  process_excel nfkd str_of_list spark path (File wb) now st = (st', Ok tt) ->
  exists sheet table,
    first_such (prefix_match nfkd (lit "sheet_prefix_to_find"))
               (sheetnames wb) sheet
    /\ intermediate_table st' = Some table
    /\ columns table
       = [lit "column_a"; lit "column_b"]
         ++ match find_flag_columns_for_aggregation nfkd
                    (columns (read_sheet wb sheet)) with
            | Some _ => [lit "flag"]
            | None => []
            end
    /\ Forall (fun r => List.length r = List.length (columns table))
              (rows table)
    /\ (List.length (rows table)
        <= List.length (rows (read_sheet wb sheet)))%nat
    /\ forall now2 st2,
         intermediate_table
           (fst (process_excel nfkd str_of_list spark path (File wb) now2 st2))
         = Some table.
Proof using nfkd_ascii.
  intros H. apply process_excel_Ok in H.
  destruct H as [st1 [f [n [Hi ->]]]]. apply ingest_Ok in Hi.
  destruct Hi as [sheet [ca [cb [cf [R [-> [-> ->]]]]]]].
  exists sheet, (resolved_table (read_sheet wb sheet) ca cb cf).
  split; [exact (proj1 (proj1 R))|].
  split; [now rewrite history_gate_intermediate|].
  split; [|split; [|split]].
  - unfold resolved_table. cbn [df_select columns]. rewrite map_app.
    cbn [map snd app]. do 2 f_equal.
    destruct R as [_ Hflag].
    rewrite (chosen_flag_eq nfkd nfkd_ascii) in Hflag.
    destruct (find_flag_columns_for_aggregation nfkd _) as [c|].
    + destruct Hflag as [_ Hn]. destruct cf; [reflexivity | contradiction].
    + now subst cf.
  - apply df_select_rows_length.
  - unfold resolved_table. rewrite (proj1 (df_select_rows_length _ _)).
    cbn [rows]. apply filter_length_le.
  - intros now2 st2. unfold process_excel.
    rewrite (ingest_resolved nfkd str_of_list spark path wb st2 _ _ _ _ R).
    cbn [fst]. now rewrite history_gate_intermediate.
Qed.

End PipelineRuns.

(** ** HistoryGate, continued *)

Lemma timestamp_ltb_trans (a b c : option pystr) :
  timestamp_ltb a b = true -> timestamp_ltb b c = true ->
  timestamp_ltb a c = true.
Proof.
  destruct a as [a|], b as [b|], c as [c|]; simpl; try discriminate; auto.
  apply pystr_ltb_trans.
Qed.

(** The latest row after one more record is stored: the new record when it
    is strictly later than the latest row so far, that row otherwise. *)
Lemma latest_row_app_single (tbl : list HistoryRow) (c : HistoryRow) :
  latest_row (tbl ++ [c])
  = match latest_row tbl with
    | None => Some c
    | Some m =>
        if timestamp_ltb (processing_timestamp m) (processing_timestamp c)
        then Some c else Some m
    end.
Proof.
  induction tbl as [|x tbl IH]; [reflexivity|].
  cbn [app latest_row]. rewrite IH.
  destruct (latest_row tbl) as [m|] eqn:Em.
  - destruct (timestamp_ltb (processing_timestamp m) (processing_timestamp c))
      eqn:Emc;
    destruct (timestamp_ltb (processing_timestamp x) (processing_timestamp m))
      eqn:Exm.
    + now rewrite Emc, (timestamp_ltb_trans _ _ _ Exm Emc).
    + reflexivity.
    + now rewrite Emc.
    + destruct (timestamp_ltb (processing_timestamp x) (processing_timestamp c))
        eqn:Exc; [|reflexivity].
      destruct (timestamp_ltb_between _ (processing_timestamp m) _ Exc);
        congruence.
  - reflexivity.
Qed.




Section Reruns.

Variable nfkd : pystr -> pystr.
Variable str_of_list : list pystr -> pystr.
Variable spark : SparkEngine.

(** X12: when the clock of a run that succeeds is after every record of the
    history table, running again on the same file changes nothing, whatever
    the time of the second run: the intermediate table is written with the
    same content and no history record is added. *)
Theorem rerun_changes_nothing (path : pystr) (file : hdfs_read)
        (now : pystr) (st st1 : Store) :
  process_excel nfkd str_of_list spark path file now st = (st1, Ok tt) ->
  (forall r, In r (prior_records st) ->
             timestamp_ltb (processing_timestamp r) (Some now) = true) ->
  forall now2,
    process_excel nfkd str_of_list spark path file now2 st1 = (st1, Ok tt).
Proof.
  intros H Hold now2. apply process_excel_Ok in H.
  destruct H as [sm [f [n [Hi ->]]]].
  pose proof (ingest_history _ _ _ _ _ _ _ _ Hi) as Hh.
  set (st1 := history_gate f now n sm).
  assert (Hi1 : ingest nfkd str_of_list spark path file st1 = (st1, Ok (f, n))).
  { rewrite (ingest_store_irrelevant nfkd str_of_list spark path file st sm
               st1 (f, n) Hi). f_equal.
    rewrite <- (history_gate_intermediate f now n sm). fold st1.
    now destruct st1. }
  unfold process_excel. rewrite Hi1. f_equal.
  assert (Hskip : last_record_changed (history_table st1) f n = false).
  { unfold st1, history_gate. cbv zeta.
    destruct (last_record_changed (history_table sm) f n) eqn:E;
      [|exact E].
    apply last_record_changed_false.
    exists (prior_records sm ++ [mk_history (Some f) (Some now) (Some n)]),
           (mk_history (Some f) (Some now) (Some n)).
    split; [|split; [|split; reflexivity]].
    - unfold write_append_history, prior_records. cbn [history_table].
      now destruct (history_table sm).
    - rewrite latest_row_app_single.
      destruct (latest_row (prior_records sm)) as [m|] eqn:Em; [|reflexivity].
      apply latest_row_most_recent in Em. destruct Em as [Hin _].
      cbn [processing_timestamp]. rewrite Hold; [reflexivity|].
      unfold prior_records in *. now rewrite <- Hh. }
  unfold history_gate. cbv zeta. now rewrite Hskip.
Qed.

(** X14: the script exits with 0 or 1; it exits with 0 exactly when the
    session started, one argument was given and [process_excel] raised
    nothing; with any other status the tables are as they were; and the
    session is stopped exactly on the runs that got to [process_excel]. *)
Theorem main_exit_status (spark_init : bool) (argv : list pystr)
        (hdfs : pystr -> hdfs_read) (now : pystr) (st : Store) :
  let o := main nfkd str_of_list spark spark_init argv hdfs now st in
  (exit_code o = 0 \/ exit_code o = 1)%Z
  /\ (exit_code o = 0%Z
      <-> spark_init = true
          /\ exists script path,
               argv = [script; path]
               /\ process_excel nfkd str_of_list spark path (hdfs path) now st
                  = (final_store o, Ok tt))
  /\ (exit_code o <> 0%Z -> final_store o = st)
  /\ (spark_stopped o = true
      <-> spark_init = true /\ List.length argv = 2%nat).
Proof.
  cbv zeta. unfold main.
  assert (Hbad : forall st0 : Store,
    let o := mk_outcome 1 st0 false in
    st0 = st ->
    (forall script path, argv <> [script; path]) \/ spark_init = false ->
    (exit_code o = 0 \/ exit_code o = 1)%Z
    /\ (exit_code o = 0%Z
        <-> spark_init = true
            /\ exists script path,
                 argv = [script; path]
                 /\ process_excel nfkd str_of_list spark path (hdfs path) now st
                    = (final_store o, Ok tt))
    /\ (exit_code o <> 0%Z -> final_store o = st)
    /\ (spark_stopped o = true
        <-> spark_init = true /\ List.length argv = 2%nat)).
  { intros st0 o -> Hwhy. subst o. cbn [exit_code final_store spark_stopped].
    split; [now right|]. split; [|split; [reflexivity|]].
    - split; [discriminate|]. intros [Hi [script [path [Ha _]]]].
      destruct Hwhy as [Hw | Hw]; [now elim (Hw script path) | congruence].
    - split; [discriminate|]. intros [Hi Hl].
      destruct Hwhy as [Hw | Hw]; [|congruence].
      destruct argv as [|script [|path [|extra rest]]]; try discriminate.
      now elim (Hw script path). }
  destruct spark_init; cbn [negb].
  2:{ apply Hbad; [reflexivity | now right]. }
  destruct argv as [|script [|path [|extra rest]]];
    try (apply Hbad; [reflexivity | left; intros s0 p0; discriminate]).
  destruct (process_excel nfkd str_of_list spark path (hdfs path) now st)
    as [st' [[]|e]] eqn:E; cbn [exit_code final_store spark_stopped].
  - split; [now left|]. split; [|split; [intros C; now elim C|]].
    + split; [|reflexivity]. intros _. split; [reflexivity|].
      now exists script, path.
    + split; [|reflexivity]. intros _. split; reflexivity.
  - pose proof E as E'.
    apply process_excel_Raise, ingest_Raise in E'. destruct E' as [-> _].
    split; [now right|]. split; [|split; [reflexivity|]].
    + split; [discriminate|].
      intros [_ [s0 [p0 [[= <- <-] C]]]]. rewrite E in C. discriminate.
    + split; [|reflexivity]. intros _. split; reflexivity.
Qed.

End Reruns.

(** ** Concrete runs, continued *)

Lemma failed_run_writes_nothing_witness :
  fst (process_excel nfkd_fragment sample_str_of_list sample_engine
         sample_path (File wb_without_column_a) sample_now
         store_with_history)
  = store_with_history
  /\ exn_class column_a_error = ValueError.
Proof.
  split; [|reflexivity].
  apply (failed_run_writes_nothing nfkd_fragment sample_str_of_list
           sample_engine sample_path (File wb_without_column_a) sample_now
           store_with_history
           (fst (process_excel nfkd_fragment sample_str_of_list sample_engine
                   sample_path (File wb_without_column_a) sample_now
                   store_with_history))
           column_a_error eq_refl).
Defined.

Lemma sheet_errors_are_wrapped_witness :
  exists e,
    find_resilient_sheet_name nfkd_fragment sample_str_of_list
      (ReadError (lit "Input path does not exist")) sample_path
      (lit "sheet_prefix_to_find") = Raise e
    /\ exn_class e = Exception
    /\ exn_msg e
       = lit "Could not enumerate sheets from Excel file '" ++ sample_path
         ++ lit "'. Original error: " ++ lit "Input path does not exist".
Proof.
  eexists. split; [reflexivity|].
  destruct (sheet_errors_are_wrapped nfkd_fragment sample_str_of_list
              (ReadError (lit "Input path does not exist"))
              sample_path (lit "sheet_prefix_to_find") _ eq_refl)
    as [Hc [_ [_ Hm]]].
  split; [exact Hc | exact (Hm _ eq_refl)].
Defined.

Lemma flagged_line_count_bounds_witness :
  (0 <= 1 <= Z.of_nat (List.length (rows_of_table march_store)))%Z.
Proof.
  apply (flagged_line_count_bounds nfkd_fragment sample_str_of_list
           sample_engine sample_path wb_march empty_store march_store (lit "q1.xlsx") 1%Z).
  reflexivity.
Defined.

Lemma intermediate_table_schema_witness :
  exists table,
    intermediate_table store_after_first_run = Some table
    /\ columns table = [lit "column_a"; lit "column_b"; lit "flag"]
    /\ List.length (rows table) = 2%nat.
Proof.
  destruct (intermediate_table_schema nfkd_fragment sample_str_of_list
              sample_engine nfkd_fragment_fixes_ascii sample_path wb_march sample_now
              store_with_history store_after_first_run eq_refl)
    as [sheet [table [_ [Ht [Hc _]]]]].
  exists table. split; [exact Ht|]. split; [exact Hc|].
  injection Ht as <-. reflexivity.
Defined.

Lemma rerun_changes_nothing_witness :
  history_table store_after_first_run
  = Some [q1_count5; q0_count9;
          mk_history (Some (lit "q1.xlsx")) (Some sample_now) (Some 1%Z)]
  /\ process_excel nfkd_fragment sample_str_of_list sample_engine sample_path
       (File wb_march) (lit "2024-03-02 10:00") store_after_first_run
     = (store_after_first_run, Ok tt).
Proof.
  split; [reflexivity|].
  apply (rerun_changes_nothing nfkd_fragment sample_str_of_list
           sample_engine sample_path (File wb_march) sample_now store_with_history
           store_after_first_run eq_refl).
  intros r [<- | [<- | []]]; reflexivity.
Defined.


Lemma history_file_name_is_last_component_witness :
  exists dir, sample_path = dir ++ lit "q1.xlsx".
Proof.
  apply (history_file_name_is_last_component nfkd_fragment
           sample_str_of_list sample_engine sample_path wb_march empty_store march_store
           (lit "q1.xlsx") 1%Z eq_refl).
Defined.

Lemma main_exit_status_witness :
  exit_code (main nfkd_fragment sample_str_of_list sample_engine true
               [lit "process_excel_data.py"; sample_path] sample_hdfs
               sample_now empty_store) = 0%Z
  /\ final_store (main nfkd_fragment sample_str_of_list sample_engine true
                    [lit "process_excel_data.py"; lit "/data/in/none.xlsx"]
                    sample_hdfs sample_now store_with_history)
     = store_with_history.
Proof.
  split; [reflexivity|].
  apply (proj1 (proj2 (proj2 (main_exit_status nfkd_fragment
                                sample_str_of_list sample_engine true
                                [lit "process_excel_data.py";
                                 lit "/data/in/none.xlsx"]
                                sample_hdfs sample_now store_with_history)))).
  discriminate.
Defined.
